(** * SmartResumeBuilder: the heuristic resume field extractor of [app.py]

  A shallow embedding of [get_default_16_fields] and
  [extract_resume_from_pdf], together with the Python string and [re]
  primitives they call, and the properties of the extractor.

  Text model.  A Python [str] is modelled as a [string] whose characters
  are the code points below 256; [str.isspace], [str.isalpha],
  [str.lower], [str.splitlines] and the [re] classes [\s], [\d], [\w] are
  written out for that range as CPython defines them.  The bullet U+2022
  of the skills separator class lies outside the range, so it never
  occurs in a modelled text. *)

From stdpp Require Import gmap strings list pretty.
From Stdlib Require Import Ascii Lia.

Local Open Scope string_scope.
Local Open Scope list_scope.
Local Open Scope nat_scope.

(** ** Characters *)

Module Char.

Definition code (c : ascii) : nat := nat_of_ascii c.

Definition between (lo hi : nat) (c : ascii) : bool :=
  (lo <=? code c) && (code c <=? hi).

Definition code_is (n : nat) (c : ascii) : bool := code c =? n.

(** [str.isspace] on one character: TAB LF VT FF CR, FS GS RS US, SPACE,
    NEL (0x85) and NBSP (0xA0). *)
Definition isspace (c : ascii) : bool :=
  between 9 13 c || between 28 32 c || code_is 133 c || code_is 160 c.

(** the line boundaries of [str.splitlines]: LF VT FF CR, FS GS RS, NEL. *)
Definition islinebreak (c : ascii) : bool :=
  between 10 13 c || between 28 30 c || code_is 133 c.

(** [str.isalpha] on one character. *)
Definition isalpha (c : ascii) : bool :=
  between 65 90 c || between 97 122 c || code_is 170 c || code_is 181 c || code_is 186 c
  || between 192 214 c || between 216 246 c || between 248 255 c.

(** [\d] of a str pattern: the decimal digits. *)
Definition isdecimal (c : ascii) : bool := between 48 57 c.

(** [\w] of a str pattern: alphanumerics (letters, decimals, the
    superscripts and vulgar fractions, which are numeric) and underscore. *)
Definition isword (c : ascii) : bool :=
  isalpha c || isdecimal c || code_is 95 c
  || code_is 178 c || code_is 179 c || code_is 185 c || between 188 190 c.

(** [str.lower] on one character. *)
Definition lower (c : ascii) : ascii :=
  if between 65 90 c || between 192 214 c || between 216 222 c
  then ascii_of_nat (code c + 32) else c.

Definition eqb (a b : ascii) : bool := Ascii.eqb a b.

Definition LF : ascii := ascii_of_nat 10.
Definition CR : ascii := ascii_of_nat 13.

End Char.

(** ** Python string primitives *)

Module Str.

(** [len(s)] *)
Definition len (s : string) : nat := String.length s.

(** truthiness of a str *)
Definition truthy (s : string) : bool :=
  match s with EmptyString => false | String _ _ => true end.

Definition eqb (a b : string) : bool := String.eqb a b.

Fixpoint map (f : ascii -> ascii) (s : string) : string :=
  match s with
  | EmptyString => EmptyString
  | String c s' => String (f c) (map f s')
  end.

(** [s.lower()] *)
Definition lower (s : string) : string := map Char.lower s.

(** [s.startswith(p)] *)
Fixpoint startswith (p s : string) : bool :=
  match p, s with
  | EmptyString, _ => true
  | String _ _, EmptyString => false
  | String a p', String b s' => Char.eqb a b && startswith p' s'
  end.

(** [p in s] *)
Fixpoint contains (p s : string) : bool :=
  startswith p s ||
  match s with
  | EmptyString => false
  | String _ s' => contains p s'
  end.

(** [s[:n]] *)
Fixpoint take (n : nat) (s : string) : string :=
  match n, s with
  | S n', String c s' => String c (take n' s')
  | _, _ => EmptyString
  end.

(** [sum(1 for c in s if p(c))] *)
Fixpoint count (p : ascii -> bool) (s : string) : nat :=
  match s with
  | EmptyString => 0
  | String c s' => (if p c then 1 else 0) + count p s'
  end.

(** [any(p(c) for c in s)] *)
Fixpoint any (p : ascii -> bool) (s : string) : bool :=
  match s with
  | EmptyString => false
  | String c s' => p c || any p s'
  end.

Fixpoint lstrip (s : string) : string :=
  match s with
  | EmptyString => EmptyString
  | String c s' => if Char.isspace c then lstrip s' else s
  end.

Fixpoint rstrip (s : string) : string :=
  match s with
  | EmptyString => EmptyString
  | String c s' =>
      let r := rstrip s' in
      if Char.isspace c && negb (truthy r) then EmptyString else String c r
  end.

(** [s.strip()] *)
Definition strip (s : string) : string := rstrip (lstrip s).

Definition cons_word (w : string) (ws : list string) : list string :=
  if truthy w then w :: ws else ws.

(** scanning from the right: the word being read and the words after it *)
Fixpoint split_scan (s : string) : string * list string :=
  match s with
  | EmptyString => (EmptyString, [])
  | String c s' =>
      let '(w, ws) := split_scan s' in
      if Char.isspace c then (EmptyString, cons_word w ws)
      else (String c w, ws)
  end.

(** [s.split()]: the maximal runs of non-whitespace characters *)
Definition split (s : string) : list string :=
  let '(w, ws) := split_scan s in cons_word w ws.

(** [s.splitlines()]: a line ends at a line boundary, CR LF counts as
    one boundary, and a final boundary opens no further line. *)
Fixpoint splitlines (s : string) : list string :=
  match s with
  | EmptyString => []
  | String c s' =>
      if Char.islinebreak c then
        if Char.eqb c Char.CR && startswith (String Char.LF EmptyString) s'
        then splitlines s'
        else EmptyString :: splitlines s'
      else
        match splitlines s' with
        | [] => [String c EmptyString]
        | l :: ls => String c l :: ls
        end
  end.

(** [sep.join(l)] *)
Fixpoint join (sep : string) (l : list string) : string :=
  match l with
  | [] => EmptyString
  | [x] => x
  | x :: rest => x +:+ sep +:+ join sep rest
  end.

(** [re.split] on a pattern that is one character class *)
Fixpoint split_on (p : ascii -> bool) (s : string) : list string :=
  match s with
  | EmptyString => [EmptyString]
  | String c s' =>
      if p c then EmptyString :: split_on p s'
      else
        match split_on p s' with
        | [] => [String c EmptyString]
        | w :: ws => String c w :: ws
        end
  end.

End Str.

(** [l[a:b]] for indices [0 <= a], [0 <= b] *)
Definition py_slice {A} (a b : nat) (l : list A) : list A :=
  take (b - a) (drop a l).

(** ** The fragment of [re] the extractor uses

  Every pattern of [app.py] is a sequence of greedy repetitions of a
  one-character class ([x], [x?], [x+], [x*], [x{m,n}]) and of the
  assertions [^], [$] and [\b]; there is no alternation and no group. *)

Module Re.

Inductive item : Type :=
| Rep (cls : ascii -> bool) (lo : nat) (hi : option nat)
| Bol
| Eol
| WordB.

Definition regex : Type := list item.

Definition can_take (hi : option nat) : bool :=
  match hi with Some 0 => false | _ => true end.

Definition dec (hi : option nat) : option nat :=
  match hi with Some n => Some (Nat.pred n) | None => None end.

(** a greedy repetition followed by the continuation [k]: take as many
    characters as the bound allows, give one back at a time while the
    continuation fails; the result is the number of characters matched. *)
Fixpoint rep_greedy (cls : ascii -> bool)
    (k : option ascii -> string -> option nat)
    (lo : nat) (hi : option nat) (prev : option ascii) (s : string)
    {struct s} : option nat :=
  let stop := match lo with 0 => k prev s | S _ => None end in
  match s with
  | EmptyString => stop
  | String c s' =>
      if cls c && can_take hi then
        match rep_greedy cls k (Nat.pred lo) (dec hi) (Some c) s' with
        | Some n => Some (S n)
        | None => stop
        end
      else stop
  end.

Definition word_at (o : option ascii) : bool :=
  match o with Some c => Char.isword c | None => false end.

Definition peek (s : string) : option ascii :=
  match s with EmptyString => None | String c _ => Some c end.

(** [$] without MULTILINE: at the end, or before a final newline *)
Definition at_eol (s : string) : bool :=
  match s with
  | EmptyString => true
  | String c EmptyString => Char.eqb c Char.LF
  | _ => false
  end.

(** match at the current position; [prev] is the character before it,
    [None] at the start of the subject *)
Fixpoint match_here (re : regex) : option ascii -> string -> option nat :=
  match re with
  | [] => fun _ _ => Some 0
  | Rep cls lo hi :: re' => rep_greedy cls (match_here re') lo hi
  | Bol :: re' => fun prev s =>
      match prev with None => match_here re' prev s | Some _ => None end
  | Eol :: re' => fun prev s =>
      if at_eol s then match_here re' prev s else None
  | WordB :: re' => fun prev s =>
      if xorb (word_at prev) (word_at (peek s))
      then match_here re' prev s else None
  end.

Fixpoint search_from (re : regex) (prev : option ascii) (s : string)
    : option string :=
  match match_here re prev s with
  | Some n => Some (Str.take n s)
  | None =>
      match s with
      | EmptyString => None
      | String c s' => search_from re (Some c) s'
      end
  end.

(** [re.search(re, s)]: the text of the leftmost match, [m.group(0)] *)
Definition search (re : regex) (s : string) : option string :=
  search_from re None s.

(** [bool(re.search(re, s))] *)
Definition found (re : regex) (s : string) : bool :=
  match search re s with Some _ => true | None => false end.

(** [bool(re.match(re, s))] *)
Definition matches (re : regex) (s : string) : bool :=
  match match_here re None s with Some _ => true | None => false end.

(** *** pattern syntax *)

Definition one (cls : ascii -> bool) : regex := [Rep cls 1 (Some 1)].
Definition opt (cls : ascii -> bool) : regex := [Rep cls 0 (Some 1)].
Definition plus (cls : ascii -> bool) : regex := [Rep cls 1 None].
Definition star (cls : ascii -> bool) : regex := [Rep cls 0 None].
Definition exactly (n : nat) (cls : ascii -> bool) : regex := [Rep cls n (Some n)].
Definition at_least (n : nat) (cls : ascii -> bool) : regex := [Rep cls n None].

(** a literal character; with IGNORECASE the comparison is caseless *)
Definition chr (c : ascii) : ascii -> bool := Char.eqb c.
Definition ichr (c : ascii) : ascii -> bool :=
  fun x => Char.eqb (Char.lower x) (Char.lower c).

Fixpoint lit (s : string) : regex :=
  match s with
  | EmptyString => []
  | String c s' => Rep (chr c) 1 (Some 1) :: lit s'
  end.

Fixpoint ilit (s : string) : regex :=
  match s with
  | EmptyString => []
  | String c s' => Rep (ichr c) 1 (Some 1) :: ilit s'
  end.

(** [\s+] *)
Definition ws1 : regex := plus Char.isspace.

End Re.



(** ** Exceptions, and the [result] dict mutated in place

    [result] is one dict object, created before the [try] and returned
    after it; an assignment made before an exception is raised is still
    there when the handler runs.  A computation therefore maps the dict to
    an outcome and the dict as it is left behind. *)

Inductive exn : Type :=
| PdfError            (* raised inside pdfplumber *)
| ZeroDivisionError   (* [a / 0] *)
| ValueError          (* [list.index] of an absent element *)
| KeyError            (* [d[k]] of an absent key *)
| UnicodeEncodeError. (* [print] of a character that stdout cannot encode *)

Inductive outcome (A : Type) : Type :=
| Ok (a : A)
| Raise (e : exn).

Arguments Ok {A} a.
Arguments Raise {A} e.

Abbreviation dict := (gmap string string).

Definition M (A : Type) : Type := dict -> outcome A * dict.

Definition ret {A} (a : A) : M A := fun r => (Ok a, r).

Definition bind {A B} (m : M A) (f : A -> M B) : M B :=
  fun r =>
    match m r with
    | (Ok a, r') => f a r'
    | (Raise e, r') => (Raise e, r')
    end.

Definition lift {A} (o : outcome A) : M A := fun r => (o, r).

(** [result[k]] *)
Definition getitem (k : string) : M string :=
  fun r =>
    match r !! k with
    | Some v => (Ok v, r)
    | None => (Raise KeyError, r)
    end.

(** [result[k] = v] *)
Definition setitem (k v : string) : M unit :=
  fun r => (Ok tt, <[k:=v]> r).

Notation "'let*' x ':=' m 'in' k" := (bind m (fun x => k))
  (at level 10, x name, m at level 100, k at level 200, only parsing).
Notation "m ;;; k" := (bind m (fun _ => k))
  (at level 100, k at level 200, right associativity, only parsing).

Definition nl : string := String Char.LF EmptyString.

Definition get_default_16_fields : dict :=
  <["title" := ""]> (
  <["fullname" := "Your Name"]> (
  <["email" := ""]> (
  <["phone" := ""]> (
  <["location" := ""]> (
  <["summary" := "PDF loaded successfully! Edit your details above."]> (
  <["skills" := ""]> (
  <["experience" := ""]> (
  <["education" := ""]> (
  <["projects" := ""]> (
  <["certifications" := ""]> (
  <["awards" := ""]> (
  <["languages" := ""]> (
  <["linkedin" := ""]> (
  <["github" := ""]> (
  <["website" := ""]> (
  <["dob" := ""]> (
  <["nationality" := ""]> (
  <["softskills" := ""]> (
  <["career_objective" := ""]> ∅))))))))))))))))))).

(** ** Text acquisition

    What pdfplumber does on a given file is an input of the model:
    [pdfplumber.open] and [pdf.pages] give the pages or raise, each
    [page.extract_text()] gives a str or [None] or raises, and leaving the
    [with] block closes the file, which may raise as well. *)

Record pdf_file : Type := {
  pdf_pages : outcome (list (outcome (option string)));
  pdf_close : outcome unit
}.

Fixpoint read_pages (pages : list (outcome (option string)))
    (all_text : string) : outcome string :=
  match pages with
  | [] => Ok all_text
  | Raise e :: _ => Raise e
  | Ok t :: rest =>
      let page_text := default "" t in
      read_pages rest
        (if Str.truthy page_text then all_text +:+ nl +:+ page_text
         else all_text)
  end.

Definition acquire (pdf : pdf_file) : outcome string :=
  match pdf_pages pdf with
  | Raise e => Raise e
  | Ok pages =>
      match read_pages pages "" with
      | Raise e => Raise e
      | Ok all_text =>
          match pdf_close pdf with
          | Raise e => Raise e
          | Ok _ => Ok all_text
          end
      end
  end.

(** ** Line normalization *)

(** [[ln.strip() for ln in all_text.splitlines() if ln.strip()]] *)
Definition normalize_lines (all_text : string) : list string :=
  List.map Str.strip
    (List.filter (fun ln => Str.truthy (Str.strip ln)) (Str.splitlines all_text)).

(** ** Name *)

(** [a / n > 0.7].  The division raises for [n = 0].  Otherwise the
    correctly rounded quotient of two naturals exceeds the double nearest
    to 0.7 exactly when [10 * a > 7 * n]: rounding is monotone, [7k / 10k]
    rounds to that same double, and any other quotient with [n < 2^50]
    differs from 0.7 by more than the rounding error. *)
Definition div_gt_0_7 (a n : nat) : outcome bool :=
  match n with
  | 0 => Raise ZeroDivisionError
  | S _ => Ok (7 * n <? 10 * a)
  end.

Fixpoint name_loop (lines : list string) : M unit :=
  match lines with
  | [] => ret tt
  | ln :: rest =>
      if Str.contains "@" ln || Str.contains "http" (Str.lower ln)
         || Str.contains "+91" ln
      then name_loop rest
      else
        let words := Str.split ln in
        if (2 <=? length words) && (length words <=? 4) && (Str.len ln <? 50)
        then
          let alpha_count :=
            Str.count (fun c => Char.isalpha c || Char.isspace c) ln in
          let* ok := (if 0 <? alpha_count
                      then lift (div_gt_0_7 alpha_count (Str.len ln))
                      else ret false) in
          if ok then setitem "fullname" ln else name_loop rest
        else name_loop rest
  end.

(** ** Email, phone, social links *)

Definition ascii_letter (c : ascii) : bool :=
  Char.between 65 90 c || Char.between 97 122 c.

Definition ascii_digit (c : ascii) : bool := Char.between 48 57 c.

Definition one_of (s : string) (c : ascii) : bool := Str.any (Char.eqb c) s.

(** [[A-Za-z0-9._%+-]+@[A-Za-z0-9.-]+\.[A-Za-z]{2,}] *)
Definition email_re : Re.regex :=
  Re.plus (fun c => ascii_letter c || ascii_digit c || one_of "._%+-" c)
  ++ Re.lit "@"
  ++ Re.plus (fun c => ascii_letter c || ascii_digit c || one_of ".-" c)
  ++ Re.lit "."
  ++ Re.at_least 2 ascii_letter.

Definition email_stage (all_text : string) : M unit :=
  match Re.search email_re all_text with
  | Some m => setitem "email" m
  | None => ret tt
  end.

Definition phone_patterns : list Re.regex :=
  [ (* \+91[\s\-]?\d{10} *)
    Re.lit "+91" ++ Re.opt (fun c => Char.isspace c || Char.eqb c "-")
      ++ Re.exactly 10 Char.isdecimal;
    (* \b0\d{10}\b *)
    [Re.WordB] ++ Re.lit "0" ++ Re.exactly 10 Char.isdecimal ++ [Re.WordB];
    (* \b\d{10}\b *)
    [Re.WordB] ++ Re.exactly 10 Char.isdecimal ++ [Re.WordB] ].

Fixpoint phone_loop (patterns : list Re.regex) (all_text : string) : string :=
  match patterns with
  | [] => ""
  | pattern :: rest =>
      match Re.search pattern all_text with
      | Some m => m
      | None => phone_loop rest all_text
      end
  end.

Definition phone_stage (all_text : string) : M unit :=
  let phone := phone_loop phone_patterns all_text in
  if Str.truthy phone then setitem "phone" phone else ret tt.

(** [site\.com[^\s]*] with IGNORECASE *)
Definition site_re (site : string) : Re.regex :=
  Re.ilit site ++ Re.ilit ".com" ++ Re.star (fun c => negb (Char.isspace c)).

Definition social_stage (key site all_text : string) : M unit :=
  match Re.search (site_re site) all_text with
  | Some url =>
      setitem key (if Str.startswith "http" url then url else "https://" +:+ url)
  | None => ret tt
  end.

(** ** Location *)

Definition cities : list string :=
  [ "ahmedabad"; "gandhinagar"; "vadodara"; "surat";
    "delhi"; "mumbai"; "bangalore"; "pune"; "hyderabad";
    "kolkata"; "firozabad"; "india"; "gujarat";
    "usa"; "uk"; "canada" ].

Fixpoint city_loop (cs : list string) (ln : string) : M unit :=
  match cs with
  | [] => ret tt
  | city :: rest =>
      if Str.contains city (Str.lower ln) && (Str.len ln <? 80)
      then setitem "location" ln
      else city_loop rest ln
  end.

Fixpoint location_loop (lines : list string) : M unit :=
  match lines with
  | [] => ret tt
  | ln :: rest =>
      city_loop cities ln ;;;
      let* loc := getitem "location" in
      if Str.truthy loc then ret tt else location_loop rest
  end.

Fixpoint location_fallback (lines : list string) : M unit :=
  match lines with
  | [] => ret tt
  | ln :: rest =>
      if Str.contains "," ln && Str.any Char.isalpha ln
      then setitem "location" ln
      else location_fallback rest
  end.

Definition location_stage (lines : list string) : M unit :=
  location_loop lines ;;;
  let* loc := getitem "location" in
  if negb (Str.truthy loc) then location_fallback (take 10 lines) else ret tt.

(** ** Section headers *)

Definition section_patterns : list (string * list Re.regex) :=
  [ ("summary",
      [ Re.ilit "career" ++ Re.ws1 ++ Re.ilit "objective";
        [Re.Bol] ++ Re.ilit "objective" ++ [Re.Eol];
        Re.ilit "professional" ++ Re.ws1 ++ Re.ilit "summary";
        Re.ilit "summary";
        Re.ilit "profile";
        Re.ilit "about" ++ Re.ws1 ++ Re.ilit "me" ]);
    ("skills",
      [ Re.ilit "technical" ++ Re.ws1 ++ Re.ilit "skills";
        [Re.Bol] ++ Re.ilit "skills" ++ [Re.Eol];
        Re.ilit "core" ++ Re.ws1 ++ Re.ilit "competencies";
        Re.ilit "key" ++ Re.ws1 ++ Re.ilit "skills";
        Re.ilit "skills" ++ Re.ws1 ++ Re.ilit "and" ++ Re.ws1 ++ Re.ilit "tools" ]);
    ("experience",
      [ Re.ilit "professional" ++ Re.ws1 ++ Re.ilit "experience";
        Re.ilit "work" ++ Re.ws1 ++ Re.ilit "experience";
        [Re.Bol] ++ Re.ilit "experience" ++ [Re.Eol];
        Re.ilit "employment" ++ Re.ws1 ++ Re.ilit "history";
        Re.ilit "career" ++ Re.ws1 ++ Re.ilit "history";
        Re.ilit "internship" ++ Re.ws1 ++ Re.ilit "experience" ]);
    ("projects",
      [ Re.ilit "academic" ++ Re.ws1 ++ Re.ilit "projects";
        Re.ilit "key" ++ Re.ws1 ++ Re.ilit "projects";
        [Re.Bol] ++ Re.ilit "projects" ++ [Re.Eol];
        Re.ilit "personal" ++ Re.ws1 ++ Re.ilit "projects" ]);
    ("education",
      [ [Re.Bol] ++ Re.ilit "education" ++ [Re.Eol];
        Re.ilit "academic" ++ Re.ws1 ++ Re.ilit "background";
        Re.ilit "educational" ++ Re.ws1 ++ Re.ilit "qualification";
        Re.ilit "academic" ++ Re.ws1 ++ Re.ilit "qualifications";
        Re.ilit "education" ++ Re.ws1 ++ Re.ilit "details" ]);
    ("certifications",
      [ [Re.Bol] ++ Re.ilit "certification" ++ Re.opt (Re.ichr "s") ++ [Re.Eol];
        Re.ilit "professional" ++ Re.ws1 ++ Re.ilit "certification"
          ++ Re.opt (Re.ichr "s");
        Re.ilit "license" ++ Re.opt (Re.ichr "s");
        Re.ilit "courses" ]);
    ("languages",
      [ Re.ilit "language" ++ Re.opt (Re.ichr "s") ++ Re.ws1 ++ Re.ilit "known";
        [Re.Bol] ++ Re.ilit "language" ++ Re.opt (Re.ichr "s") ++ [Re.Eol] ]);
    ("awards",
      [ [Re.Bol] ++ Re.ilit "awards" ++ [Re.Eol];
        Re.ilit "achievements";
        Re.ilit "honors" ]) ].

(** the index of the first line that some pattern of the field is found
    in; [i] is the index of the head of [lines] *)
Fixpoint first_header (patterns : list Re.regex) (lines : list string)
    (i : nat) : option nat :=
  match lines with
  | [] => None
  | ln :: rest =>
      if existsb (fun pattern => Re.found pattern ln) patterns then Some i
      else first_header patterns rest (S i)
  end.

(** [section_positions], in the insertion order of its keys *)
Definition locate_headers (lines : list string) : list (string * nat) :=
  omap (fun '(field, patterns) =>
          match first_header patterns lines 0 with
          | Some i => Some (field, i)
          | None => None
          end)
       section_patterns.

Fixpoint position_of (field_name : string) (section_positions : list (string * nat))
    : option nat :=
  match section_positions with
  | [] => None
  | (f, pos) :: rest =>
      if Str.eqb f field_name then Some pos else position_of field_name rest
  end.

(** the loop over [section_positions.items()] that lowers [end] *)
Fixpoint lower_end (start end_ : nat) (items : list (string * nat)) : nat :=
  match items with
  | [] => end_
  | (_, pos) :: rest =>
      lower_end start (if (start <? pos) && (pos <? end_) then pos else end_) rest
  end.

(** [^page\s+\d+] with IGNORECASE *)
Definition page_re : Re.regex :=
  [Re.Bol] ++ Re.ilit "page" ++ Re.ws1 ++ Re.plus Char.isdecimal.

Definition keep_line (ln : string) : bool :=
  negb (Str.len ln <? 10) && negb (Re.matches page_re ln).

(** the bounds [(start, end)] of [content_lines = lines[start:end]] *)
Definition section_bounds (lines : list string)
    (section_positions : list (string * nat)) (field_name : string)
    (max_lines : nat) : option (nat * nat) :=
  match position_of field_name section_positions with
  | None => None
  | Some pos =>
      let start := pos + 1 in
      let end_ := lower_end start (length lines) section_positions in
      Some (start, Nat.min end_ (start + max_lines))
  end.

Definition get_section_content (lines : list string)
    (section_positions : list (string * nat)) (field_name : string)
    (max_lines : nat) : list string :=
  match section_bounds lines section_positions field_name max_lines with
  | None => []
  | Some (start, end_) =>
      let content_lines := py_slice start end_ lines in
      List.filter keep_line content_lines
  end.

(** truthiness of a list *)
Definition nonempty {A} (l : list A) : bool :=
  match l with [] => false | _ :: _ => true end.

(** ** Per-field assembly *)

Section Assembly.

Variable lines : list string.
Variable section_positions : list (string * nat).

Let section_content := get_section_content lines section_positions.

Definition career_objective_re : Re.regex :=
  Re.ilit "career" ++ Re.ws1 ++ Re.ilit "objective".

Definition summary_stage : M unit :=
  let summary_lines := section_content "summary" 10 in
  if nonempty summary_lines then
    let full_summary := Str.take 1000 (Str.join " " summary_lines) in
    setitem "summary" full_summary ;;;
    if existsb (fun ln => Re.found career_objective_re ln) lines
    then setitem "career_objective" full_summary
    else ret tt
  else ret tt.

(** [[,•\|/\n]]; the bullet is no character of the model *)
Definition skill_separator (c : ascii) : bool :=
  one_of ",|/" c || Char.eqb c Char.LF.

Definition skill_tokens (skills_text : string) : list string :=
  List.map Str.strip
    (List.filter
       (fun s => (2 <? Str.len (Str.strip s)) && (Str.len (Str.strip s) <? 80))
       (Str.split_on skill_separator skills_text)).

Definition skills_stage : M unit :=
  let skills_lines := section_content "skills" 20 in
  if nonempty skills_lines then
    let skills_text := Str.join " " skills_lines in
    let skills := skill_tokens skills_text in
    setitem "skills" (Str.take 500 (Str.join ", " (take 30 skills)))
  else ret tt.

(** [lines.index(ln)] *)
Fixpoint list_index (ln : string) (l : list string) : outcome nat :=
  match l with
  | [] => Raise ValueError
  | x :: rest =>
      if Str.eqb x ln then Ok 0
      else match list_index ln rest with
           | Ok i => Ok (S i)
           | Raise e => Raise e
           end
  end.

(** the fallback loop of the experience field; without a hit [exp_lines]
    stays the empty list it was *)
Fixpoint experience_fallback (todo : list string) : M (list string) :=
  match todo with
  | [] => ret []
  | ln :: rest =>
      if Str.contains "experience" (Str.lower ln) && (Str.len ln <? 70) then
        let* idx := lift (list_index ln lines) in
        ret (py_slice (idx + 1) (idx + 15) lines)
      else experience_fallback rest
  end.

Definition experience_stage : M unit :=
  let exp_lines := section_content "experience" 30 in
  let* exp_lines :=
    (if negb (nonempty exp_lines) then experience_fallback lines
     else ret exp_lines) in
  if nonempty exp_lines
  then setitem "experience" (Str.take 1500 (Str.join nl exp_lines))
  else ret tt.

Definition degree_words : list string :=
  [ "b.tech"; "b.e"; "bachelor"; "master"; "phd"; "degree" ].

Definition education_stage : M unit :=
  let edu_lines := section_content "education" 20 in
  let edu_lines :=
    if negb (nonempty edu_lines)
    then List.filter
           (fun ln => existsb (fun dw => Str.contains dw (Str.lower ln)) degree_words)
           lines
    else edu_lines in
  if nonempty edu_lines
  then setitem "education" (Str.take 1000 (Str.join nl edu_lines))
  else ret tt.

(** the four fields without a fallback: join, cap, assign *)
Definition plain_stage (key : string) (max_lines : nat) (sep : string)
    (cap : nat) : M unit :=
  let content := section_content key max_lines in
  if nonempty content
  then setitem key (Str.take cap (Str.join sep content))
  else ret tt.

End Assembly.

(** ** Title *)

Definition title_keywords : list string :=
  [ "engineer"; "developer"; "analyst"; "manager"; "specialist";
    "consultant"; "architect"; "designer"; "scientist"; "executive";
    "coordinator" ].

Fixpoint title_loop (lines : list string) : M unit :=
  match lines with
  | [] => ret tt
  | ln :: rest =>
      if existsb (fun kw => Str.contains kw (Str.lower ln)) title_keywords
         && (Str.len ln <? 100)
      then setitem "title" ln
      else title_loop rest
  end.

Definition title_stage (lines : list string) : M unit :=
  let* t := getitem "title" in
  let* enter :=
    (if negb (Str.truthy t) then ret true
     else let* t := getitem "title" in ret (Str.eqb t "My Resume")) in
  if enter then
    title_loop (take 25 lines) ;;;
    let* t := getitem "title" in
    if Str.eqb t "My Resume" then
      let* skills := getitem "skills" in
      if Str.contains "data" (Str.lower skills)
      then setitem "title" "Data Professional"
      else
        let* skills := getitem "skills" in
        if Str.contains "python" (Str.lower skills)
        then setitem "title" "Software Developer"
        else setitem "title" "Professional"
    else ret tt
  else ret tt.

(** ** The extractor *)

(** the body of the [try] from [all_text = all_text.strip()] on; the two
    early [return result] are the branches that do nothing more *)
Definition process_text (all_text : string) : M unit :=
  let all_text := Str.strip all_text in
  if negb (Str.truthy all_text) then ret tt
  else
    let lines := normalize_lines all_text in
    if negb (nonempty lines) then ret tt
    else
      name_loop (take 15 lines) ;;;
      email_stage all_text ;;;
      phone_stage all_text ;;;
      location_stage lines ;;;
      social_stage "linkedin" "linkedin" all_text ;;;
      social_stage "github" "github" all_text ;;;
      let section_positions := locate_headers lines in
      summary_stage lines section_positions ;;;
      skills_stage lines section_positions ;;;
      experience_stage lines section_positions ;;;
      education_stage lines section_positions ;;;
      plain_stage lines section_positions "projects" 30 nl 800 ;;;
      plain_stage lines section_positions "certifications" 15 nl 800 ;;;
      plain_stage lines section_positions "languages" 5 ", " 300 ;;;
      plain_stage lines section_positions "awards" 15 nl 500 ;;;
      title_stage lines.

Definition try_body (pdf : pdf_file) : M unit :=
  let* all_text := lift (acquire pdf) in
  process_text all_text.

(** the dict that [return result] hands back: after the [try] and after
    the handler alike it is the dict as the body left it.  Whether the
    handler gets as far as the [return] is the matter of
    [extract_resume_from_pdf_call] below. *)
Definition extract_resume_from_pdf (pdf : pdf_file) : dict :=
  let result := get_default_16_fields in
  match try_body pdf result with
  | (Ok _, result') => result'
  | (Raise _, result') => result'
  end.

(** [print(f"❌ PDF extraction error: {e}")], the one statement of the
    handler.  The message holds U+274C; [print] raises when the encoding
    of [sys.stdout] has no code for a character of the message (cp1252 has
    none for U+274C).  [encodable] says whether stdout can encode the
    message. *)
Definition print_error (encodable : bool) : outcome unit :=
  if encodable then Ok tt else Raise UnicodeEncodeError.

(** a call of [extract_resume_from_pdf]: [try], [except Exception], and
    [return result].  What the handler itself raises is caught by no
    one and leaves the function. *)
Definition extract_resume_from_pdf_call (encodable : bool) (pdf : pdf_file)
    : outcome dict :=
  let result := get_default_16_fields in
  match try_body pdf result with
  | (Ok _, result') => Ok result'
  | (Raise _, result') =>
      match print_error encodable with
      | Ok _ => Ok result'
      | Raise e => Raise e
      end
  end.

(** a file that opens, has the one page [text], and closes *)
Definition one_page (text : string) : pdf_file :=
  {| pdf_pages := Ok [Ok (Some text)]; pdf_close := Ok tt |}.

(** * The title repair of [fix_titles]

    The route walks the resumes of the user in query order, numbered from
    1, and renames every resume titled ["My Resume"].  A resume enters the
    model as its title, [None] for a NULL column. *)

(** truthiness of a value that may be [None] *)
Definition opt_truthy (v : option string) : bool :=
  match v with Some s => Str.truthy s | None => false end.

(** [v == s] for a value that may be [None] *)
Definition opt_eqb (v : option string) (s : string) : bool :=
  match v with Some x => Str.eqb x s | None => false end.

(** the loop of [fix_titles] from index [i] on, with the count so far *)
Fixpoint fix_titles_loop (i : nat) (titles : list (option string)) (count : nat)
    : list (option string) * nat :=
  match titles with
  | [] => ([], count)
  | title :: rest =>
      if opt_eqb title "My Resume" then
        let '(rest', count') := fix_titles_loop (S i) rest (count + 1) in
        (Some ("My Resume #" +:+ pretty i) :: rest', count')
      else
        let '(rest', count') := fix_titles_loop (S i) rest count in
        (title :: rest', count')
  end.

(** the titles after the route has run, and the count it reports *)
Definition fix_titles (titles : list (option string)) : list (option string) * nat :=
  fix_titles_loop 1 titles 0.

(** * The field updates of [edit_resume] and the input of [ats_score]

    The normalizers live in [services.ats_normalizer], outside the files at
    hand, and are parameters here.  A column or a form value that may be
    missing is an [option string]. *)

(** [a or b] *)
Definition py_or (a b : option string) : option string :=
  if opt_truthy a then a else b.

(** [a or s] for a str [s] *)
Definition or_str (a : option string) (s : string) : string :=
  match a with
  | Some v => if Str.truthy v then v else s
  | None => s
  end.

(** ['. '.join(raw.split('.')) if raw else ''] *)
Definition dot_join (raw : string) : string :=
  if Str.truthy raw then Str.join ". " (Str.split_on (Char.eqb ".") raw) else "".

Module Resume.

Record t : Type := mk {
  title : option string;
  fullname : option string;
  email : option string;
  phone : option string;
  location : option string;
  profile_pic : option string;
  summary : option string;
  skills : option string;
  experience : option string;
  education : option string;
  projects : option string;
  certifications : option string;
  awards : option string;
  languages : option string;
  linkedin : option string;
  github : option string;
  website : option string;
  dob : option string;
  nationality : option string;
  softskills : option string;
  career_objective : option string
}.

End Resume.

(** a value of the [parsed] dict of [ats_score] *)
Inductive value : Type :=
| VStr (s : string)
| VList (l : list string).

Section Routes.

Variable normalize_date : string -> string.
Variable normalize_skills : string -> string.
Variable normalize_softskills : string -> string.
Variable normalize_languages_spoken : string -> string.
Variable normalize_block_section : string -> string.

(** the assignments of the POST branch of [edit_resume]; [form] is
    [request.form], and [upload] is the secured name under which a named
    uploaded picture was saved, if there was one *)
Definition edit_resume_post (form : gmap string string) (upload : option string)
    (resume : Resume.t) : Resume.t :=
  let block (key : string) (old : option string) :=
    Some (normalize_block_section (or_str (py_or (form !! key) old) "")) in
  let dob_raw := py_or (form !! "dob") (Resume.dob resume) in
  let summary_raw :=
    or_str (py_or (form !! "summary") (Resume.summary resume)) "" in
  let careerobjective_raw :=
    or_str (py_or (form !! "careerobjective") (Resume.career_objective resume)) "" in
  {| Resume.title :=
       Some (or_str (py_or (form !! "title") (Resume.title resume)) "My Resume");
     Resume.fullname := py_or (form !! "fullname") (Resume.fullname resume);
     Resume.email := py_or (form !! "email") (Resume.email resume);
     Resume.phone := py_or (form !! "phone") (Resume.phone resume);
     Resume.location := py_or (form !! "location") (Resume.location resume);
     Resume.dob :=
       match dob_raw with
       | Some d => if Str.truthy d then Some (normalize_date d) else Resume.dob resume
       | None => Resume.dob resume
       end;
     Resume.nationality :=
       Some (Str.strip
               (or_str (py_or (form !! "nationality") (Resume.nationality resume)) ""));
     Resume.summary := Some (dot_join summary_raw);
     Resume.career_objective := Some (dot_join careerobjective_raw);
     Resume.skills :=
       Some (normalize_skills
               (or_str (py_or (form !! "skills") (Resume.skills resume)) ""));
     Resume.softskills :=
       Some (normalize_softskills
               (or_str (py_or (form !! "softskills") (Resume.softskills resume)) ""));
     Resume.languages :=
       Some (normalize_languages_spoken
               (or_str (py_or (form !! "languages") (Resume.languages resume)) ""));
     Resume.experience := block "experience" (Resume.experience resume);
     Resume.education := block "education" (Resume.education resume);
     Resume.projects := block "projects" (Resume.projects resume);
     Resume.certifications := block "certifications" (Resume.certifications resume);
     Resume.awards := block "awards" (Resume.awards resume);
     Resume.linkedin := py_or (form !! "linkedin") (Resume.linkedin resume);
     Resume.github := py_or (form !! "github") (Resume.github resume);
     Resume.website := py_or (form !! "website") (Resume.website resume);
     Resume.profile_pic :=
       match upload with
       | Some filename => Some filename
       | None => Resume.profile_pic resume
       end |}.

(** the [parsed] dict that [ats_score] builds from the extracted fields *)
Definition ats_parsed (extracted : dict) : gmap string value :=
  let text (key : string) := or_str (extracted !! key) "" in
  <["fullname" := VStr (Str.strip (text "fullname"))]> (
  <["email" := VStr (Str.strip (text "email"))]> (
  <["phone" := VStr (Str.strip (text "phone"))]> (
  <["location" := VStr (Str.strip (text "location"))]> (
  <["summary" := VStr (Str.join " " (Str.split (text "summary")))]> (
  <["skills" := VStr (normalize_skills (text "skills"))]> (
  <["experience" := VStr (normalize_block_section (text "experience"))]> (
  <["education" := VStr (normalize_block_section (text "education"))]> (
  <["projects" := VStr (normalize_block_section (text "projects"))]> (
  <["certifications" := VStr (normalize_block_section (text "certifications"))]> (
  <["languages" := VStr (normalize_languages_spoken (text "languages"))]> (
  <["keywords" := VList []]> ∅))))))))))).

End Routes.

(** * Derived definitions

    The value each stage assigns as a function of the text alone, the
    predicates the properties are stated with, and sample inputs. *)

Fixpoint str_all (p : ascii -> bool) (s : string) : bool :=
  match s with
  | EmptyString => true
  | String c s' => p c && str_all p s'
  end.

(** empty or whitespace-only *)
Definition blank (s : string) : bool := str_all Char.isspace s.

(** the keys of the returned mapping *)
Definition field_names : list string :=
  [ "title"; "fullname"; "email"; "phone"; "location"; "summary"; "skills";
    "experience"; "education"; "projects"; "certifications"; "awards";
    "languages"; "linkedin"; "github"; "website"; "dob"; "nationality";
    "softskills"; "career_objective" ].

(** an assignment that happens only when there is a value *)
Definition set_opt (k : string) (o : option string) (r : dict) : dict :=
  match o with
  | Some v => <[k:=v]> r
  | None => r
  end.

(** the test a line passes to become the full name *)
Definition is_name (ln : string) : bool :=
  negb (Str.contains "@" ln || Str.contains "http" (Str.lower ln)
        || Str.contains "+91" ln)
  && ((2 <=? length (Str.split ln)) && (length (Str.split ln) <=? 4)
      && (Str.len ln <? 50))
  && ((0 <? Str.count (fun c => Char.isalpha c || Char.isspace c) ln)
      && (7 * Str.len ln <? 10 * Str.count (fun c => Char.isalpha c || Char.isspace c) ln)).

Definition phone_of (all_text : string) : option string :=
  let phone := phone_loop phone_patterns all_text in
  if Str.truthy phone then Some phone else None.

Definition social_of (site all_text : string) : option string :=
  match Re.search (site_re site) all_text with
  | Some url => Some (if Str.startswith "http" url then url else "https://" +:+ url)
  | None => None
  end.

(** the two tests of the location stage *)
Definition city_line (ln : string) : bool :=
  existsb (fun city => Str.contains city (Str.lower ln) && (Str.len ln <? 80)) cities.

Definition comma_line (ln : string) : bool :=
  Str.contains "," ln && Str.any Char.isalpha ln.

Definition location_of (lines : list string) : option string :=
  match List.find city_line lines with
  | Some ln => Some ln
  | None => List.find comma_line (take 10 lines)
  end.

Definition summary_of (lines : list string) (sp : list (string * nat))
    : option string :=
  let summary_lines := get_section_content lines sp "summary" 10 in
  if nonempty summary_lines
  then Some (Str.take 1000 (Str.join " " summary_lines)) else None.

Definition career_objective_of (lines : list string) (sp : list (string * nat))
    : option string :=
  if existsb (fun ln => Re.found career_objective_re ln) lines
  then summary_of lines sp else None.

Definition skills_of (lines : list string) (sp : list (string * nat))
    : option string :=
  let skills_lines := get_section_content lines sp "skills" 20 in
  if nonempty skills_lines
  then Some (Str.take 500
               (Str.join ", " (take 30 (skill_tokens (Str.join " " skills_lines)))))
  else None.

(** the test of the experience fallback *)
Definition exp_marker (ln : string) : bool :=
  Str.contains "experience" (Str.lower ln) && (Str.len ln <? 70).

(** the index of the first element that satisfies [p] *)
Fixpoint first_index {A} (p : A -> bool) (l : list A) : option nat :=
  match l with
  | [] => None
  | x :: rest =>
      if p x then Some 0
      else match first_index p rest with
           | Some i => Some (S i)
           | None => None
           end
  end.

(** the up to 14 lines after the first marker line *)
Definition fallback_lines (lines : list string) : list string :=
  match first_index exp_marker lines with
  | Some idx => py_slice (idx + 1) (idx + 15) lines
  | None => []
  end.

Definition experience_lines (lines : list string) (sp : list (string * nat))
    : list string :=
  let exp_lines := get_section_content lines sp "experience" 30 in
  if negb (nonempty exp_lines) then fallback_lines lines else exp_lines.

Definition experience_of (lines : list string) (sp : list (string * nat))
    : option string :=
  let exp_lines := experience_lines lines sp in
  if nonempty exp_lines
  then Some (Str.take 1500 (Str.join nl exp_lines)) else None.

Definition education_of (lines : list string) (sp : list (string * nat))
    : option string :=
  let edu_lines := get_section_content lines sp "education" 20 in
  let edu_lines :=
    if negb (nonempty edu_lines)
    then List.filter
           (fun ln => existsb (fun dw => Str.contains dw (Str.lower ln)) degree_words)
           lines
    else edu_lines in
  if nonempty edu_lines
  then Some (Str.take 1000 (Str.join nl edu_lines)) else None.

Definition plain_of (lines : list string) (sp : list (string * nat))
    (key : string) (max_lines : nat) (sep : string) (cap : nat) : option string :=
  let content := get_section_content lines sp key max_lines in
  if nonempty content then Some (Str.take cap (Str.join sep content)) else None.

(** the test a line passes to become the title *)
Definition title_line (ln : string) : bool :=
  existsb (fun kw => Str.contains kw (Str.lower ln)) title_keywords
  && (Str.len ln <? 100).

(** the dict after all stages have run on [r] *)
Definition assembled (all_text : string) (lines : list string) (r : dict) : dict :=
  let sp := locate_headers lines in
  set_opt "title" (List.find title_line (take 25 lines)) (
  set_opt "awards" (plain_of lines sp "awards" 15 nl 500) (
  set_opt "languages" (plain_of lines sp "languages" 5 ", " 300) (
  set_opt "certifications" (plain_of lines sp "certifications" 15 nl 800) (
  set_opt "projects" (plain_of lines sp "projects" 30 nl 800) (
  set_opt "education" (education_of lines sp) (
  set_opt "experience" (experience_of lines sp) (
  set_opt "skills" (skills_of lines sp) (
  set_opt "career_objective" (career_objective_of lines sp) (
  set_opt "summary" (summary_of lines sp) (
  set_opt "github" (social_of "github" all_text) (
  set_opt "linkedin" (social_of "linkedin" all_text) (
  set_opt "location" (location_of lines) (
  set_opt "phone" (phone_of all_text) (
  set_opt "email" (Re.search email_re all_text) (
  set_opt "fullname" (List.find is_name (take 15 lines)) r))))))))))))))).

(** the dict the text part of the body leaves, started on the defaults *)
Definition fields_of (all_text : string) : dict :=
  let all_text := Str.strip all_text in
  if negb (Str.truthy all_text) then get_default_16_fields
  else
    let lines := normalize_lines all_text in
    if negb (nonempty lines) then get_default_16_fields
    else assembled all_text lines get_default_16_fields.

(** the default mapping as the specification words it *)
Definition spec_default (k : string) : option string :=
  if Str.eqb k "fullname" then Some "Your Name"
  else if Str.eqb k "summary"
       then Some "PDF loaded successfully! Edit your details above."
       else if existsb (Str.eqb k) field_names then Some "" else None.

(** a page of spaces and line breaks *)
Definition blank_page : pdf_file :=
  one_page (" " +:+ nl +:+ "  " +:+ nl).

(** the value of [k] has at most [cap] characters *)
Definition capped (r : dict) (k : string) (cap : nat) : Prop :=
  exists v, r !! k = Some v /\ Str.len v <= cap.

Definition within_caps (r : dict) : Prop :=
  capped r "summary" 1000 /\ capped r "skills" 500 /\
  capped r "experience" 1500 /\ capped r "education" 1000 /\
  capped r "projects" 800 /\ capped r "certifications" 800 /\
  capped r "languages" 300 /\ capped r "awards" 500.

(** the second page cannot be read *)
Definition broken_pdf : pdf_file :=
  {| pdf_pages := Ok [Ok (Some "Jane Doe"); Raise PdfError];
     pdf_close := Ok tt |}.

Definition name_placeholder : string := "Your Name".
Definition summary_placeholder : string :=
  "PDF loaded successfully! Edit your details above.".

Definition fullname_ok (r : dict) : Prop :=
  exists v, r !! "fullname" = Some v /\ v <> "" /\
    (v = name_placeholder \/ 2 <= length (Str.split v) <= 4).

Definition summary_ok (r : dict) : Prop :=
  exists v, r !! "summary" = Some v /\ v <> "" /\
    (v = summary_placeholder \/
     exists summary_lines,
       summary_lines <> [] /\
       Forall (fun ln => 10 <= Str.len ln) summary_lines /\
       v = Str.take 1000 (Str.join " " summary_lines)).

(** the normalized lines of a text *)
Definition lines_of (all_text : string) : list string :=
  normalize_lines (Str.strip all_text).

(** the content lines [get_section_content] gives for a field of a text *)
Definition section_of (all_text field : string) (max_lines : nat) : list string :=
  get_section_content (lines_of all_text) (locate_headers (lines_of all_text))
    field max_lines.

Definition patterns_of (field : string) : list Re.regex :=
  match List.find (fun entry => Str.eqb (fst entry) field) section_patterns with
  | Some (_, patterns) => patterns
  | None => []
  end.

(** some header pattern of the field is found in the line *)
Definition is_header (field ln : string) : bool :=
  existsb (fun pattern => Re.found pattern ln) (patterns_of field).

(** a stray line that mentions experience, and no experience header *)
Definition stray_experience : string :=
  "Jane Doe" +:+ nl +:+ "5 years experience in logistics" +:+ nl +:+
  "Managed a fleet of forty trucks" +:+ nl +:+ "Cut fuel costs".

(** a summary under a career objective header *)
Definition objective_resume : string :=
  "Jane Doe" +:+ nl +:+ "Career Objective" +:+ nl +:+
  "To build reliable payment systems." +:+ nl +:+ "SKILLS" +:+ nl +:+
  "Python, Django, Flask".

(** two headers on consecutive lines *)
Definition adjacent_headers : string :=
  "SUMMARY" +:+ nl +:+ "SKILLS" +:+ nl +:+ "Python, Go, SQL, Docker and more".

(** no title keyword, and a skills section that mentions python *)
Definition no_title_resume : string :=
  "Jane Doe" +:+ nl +:+ "SKILLS" +:+ nl +:+ "Python, Django, Flask".

(** the scenario text of the specification, with a link line added *)
Definition scenario : string :=
  "Jane Doe" +:+ nl +:+ "jane.doe@email.com" +:+ nl +:+ "+91 9876543210" +:+ nl +:+
  "Bangalore, India" +:+ nl +:+ nl +:+ "SUMMARY" +:+ nl +:+
  "Experienced backend engineer with 5 years building APIs." +:+ nl +:+ nl +:+
  "SKILLS" +:+ nl +:+ "Python, Go, SQL, Docker" +:+ nl +:+ nl +:+
  "EXPERIENCE" +:+ nl +:+ "Backend Engineer at Foo Corp 2019-2024" +:+ nl +:+
  "Built payment systems." +:+ nl +:+ "github.com/janedoe".

Definition scenario_result : dict := extract_resume_from_pdf (one_page scenario).

(** the texts a pattern can match: one run of characters of the class for
    each repetition, of a length within its bounds; assertions consume
    nothing *)
Fixpoint shaped (re : Re.regex) (m : string) : Prop :=
  match re with
  | [] => m = ""
  | Re.Rep cls lo hi :: re' =>
      exists a b,
        m = a +:+ b /\ str_all cls a = true /\ lo <= Str.len a /\
        (forall h, hi = Some h -> Str.len a <= h) /\ shaped re' b
  | _ :: re' => shaped re' m
  end.

(** [v] occurs in [s] *)
Definition occurs_in (v s : string) : Prop :=
  exists pre post, s = pre +:+ v +:+ post.

(** the 256 characters of the model *)
Definition all_ascii : list ascii := List.map ascii_of_nat (seq 0 256).

(** every character of class [p] is of class [q] *)
Definition class_sub (p q : ascii -> bool) : bool :=
  forallb (fun c => implb (p c) (q c)) all_ascii.

(** every class a pattern repeats lies within [q] *)
Definition re_within (q : ascii -> bool) (re : Re.regex) : bool :=
  forallb (fun it => match it with
                     | Re.Rep cls _ _ => class_sub cls q
                     | _ => true
                     end) re.

Definition no_space (c : ascii) : bool := negb (Char.isspace c).

Definition not_at (c : ascii) : bool := negb (Char.eqb "@" c).

(** the classes of the pattern do not tell a character from its lower
    case *)
Definition case_blind (re : Re.regex) : bool :=
  forallb (fun it => match it with
                     | Re.Rep cls _ _ =>
                         forallb (fun c => Bool.eqb (cls (Char.lower c)) (cls c))
                                 all_ascii
                     | _ => true
                     end) re.

(** a summary of two lines, and a skills section *)
Definition two_sections : list string :=
  [ "SUMMARY"; "Backend engineer for payment systems"; "Five years of Python";
    "SKILLS"; "Python, Django, Flask" ].

(** a character that is no skill separator *)
Definition not_separator (c : ascii) : bool := negb (skill_separator c).

(** what holds of every skill token *)
Definition token_ok (tk : string) : Prop :=
  2 < Str.len tk < 80 /\
  str_all not_separator tk = true /\
  Str.strip tk = tk.

(** the test of the education fallback *)
Definition degree_line (ln : string) : bool :=
  existsb (fun dw => Str.contains dw (Str.lower ln)) degree_words.

(** a resume whose degrees stand under no education header *)
Definition degrees_resume : string :=
  "Jane Doe" +:+ nl +:+ "Bachelor of Science, Pune University" +:+ nl +:+
  "Worked on compilers" +:+ nl +:+ "Master of Science, IIT Delhi".

(** the period, the separator of [dot_join] *)
Definition is_dot (c : ascii) : bool := Char.eqb "." c.

(** a resume with a summary of two sentences and nothing else *)
Definition two_sentences : Resume.t :=
  {| Resume.title := None; Resume.fullname := None; Resume.email := None;
     Resume.phone := None; Resume.location := None; Resume.profile_pic := None;
     Resume.summary := Some "Built APIs. Led a team.";
     Resume.skills := None; Resume.experience := None; Resume.education := None;
     Resume.projects := None; Resume.certifications := None;
     Resume.awards := None; Resume.languages := None; Resume.linkedin := None;
     Resume.github := None; Resume.website := None; Resume.dob := None;
     Resume.nationality := None; Resume.softskills := None;
     Resume.career_objective := None |}.

(** the columns that [edit_resume] fills from the form or else keeps *)
Definition kept_columns : list (Resume.t -> option string) :=
  [ Resume.title; Resume.fullname; Resume.email; Resume.phone;
    Resume.location; Resume.linkedin; Resume.github; Resume.website;
    Resume.summary; Resume.career_objective ].

(** a word: non-empty and free of whitespace *)
Definition is_word (w : string) : Prop :=
  Str.truthy w = true /\ str_all no_space w = true.

(** the contact keys that [ats_score] strips *)
Definition contact_keys : list string := [ "fullname"; "email"; "phone"; "location" ].

(** a character of ASCII *)
Definition is_ascii (c : ascii) : bool := Char.code c <? 128.

(** [a] is as long as [w], and every ASCII character of [a] is the
    character of [w] at its position, in either case; a position of [a]
    that holds another character is left open *)
Fixpoint agrees_up_to_case (a w : string) : bool :=
  match a, w with
  | EmptyString, EmptyString => true
  | String x a', String c w' =>
      (if is_ascii x then Char.eqb (Char.lower x) (Char.lower c) else true)
      && agrees_up_to_case a' w'
  | _, _ => false
  end.

(** two header lines and a content line, in capitals *)
Definition capital_headers : list string :=
  [ "SKILLS"; "PYTHON, DJANGO, FLASK"; "WORK EXPERIENCE" ].

(** the columns that [edit_resume] assigns as [form value or stored
    value], with their form keys *)
Definition plain_columns : list (string * (Resume.t -> option string)) :=
  [ ("fullname", Resume.fullname); ("email", Resume.email);
    ("phone", Resume.phone); ("location", Resume.location);
    ("linkedin", Resume.linkedin); ("github", Resume.github);
    ("website", Resume.website) ].

(** * Properties *)

(** ** Strings *)

Lemma len_take n s : Str.len (Str.take n s) <= n.
Proof.
  unfold Str.len.
  revert s; induction n as [|n IH]; intros [|c s]; simpl; try lia.
  specialize (IH s). lia.
Qed.

Lemma take_truthy n s :
  0 < n -> Str.truthy s = true -> Str.truthy (Str.take n s) = true.
Proof. destruct n, s; simpl; intros; try lia; done. Qed.

Lemma truthy_len s : Str.truthy s = true <-> 0 < Str.len s.
Proof. unfold Str.len. destruct s; simpl; split; intros; try done; lia. Qed.

Lemma truthy_app a b : Str.truthy a = true -> Str.truthy (a +:+ b) = true.
Proof. by destruct a. Qed.

Lemma join_truthy sep x l :
  Str.truthy x = true -> Str.truthy (Str.join sep (x :: l)) = true.
Proof. intros Hx. destruct l; simpl; [done | by apply truthy_app]. Qed.

Lemma count_le_len p s : Str.count p s <= Str.len s.
Proof.
  unfold Str.len.
  induction s as [|c s IH]; simpl; [lia|].
  destruct (p c); lia.
Qed.

Lemma lstrip_blank s : blank s = true -> Str.lstrip s = "".
Proof.
  induction s as [|c s IH]; simpl; [done|].
  intros [Hc Hs]%andb_prop. rewrite Hc. auto.
Qed.

Lemma strip_blank s : blank s = true -> Str.strip s = "".
Proof. intros H. unfold Str.strip. by rewrite lstrip_blank. Qed.

(** every normalized line is non-empty *)
Lemma normalize_lines_truthy all_text :
  Forall (fun ln => Str.truthy ln = true) (normalize_lines all_text).
Proof.
  unfold normalize_lines.
  induction (Str.splitlines all_text) as [|l ls IH]; simpl; [constructor|].
  destruct (Str.truthy (Str.strip l)) eqn:E; simpl; [constructor|]; done.
Qed.

(** ** The dict *)

Lemma lookup_set_opt_ne k k' o (r : dict) :
  k ≠ k' -> set_opt k o r !! k' = r !! k'.
Proof. intros. destruct o; simpl; [by rewrite lookup_insert_ne | done]. Qed.

Lemma lookup_set_opt_eq k o (r : dict) :
  set_opt k o r !! k = match o with Some v => Some v | None => r !! k end.
Proof. destruct o; simpl; [by rewrite lookup_insert_eq | done]. Qed.

Lemma dom_set_opt k o (r : dict) :
  is_Some (r !! k) -> dom (set_opt k o r) = dom r.
Proof. intros. destruct o; simpl; [by apply dom_insert_lookup_L | done]. Qed.

Lemma dom_default : dom get_default_16_fields = list_to_set field_names.
Proof.
  unfold get_default_16_fields, field_names.
  rewrite !dom_insert_L, dom_empty_L. reflexivity.
Qed.

(** ** Running the stages

    Each stage, run on a dict, returns normally and leaves the dict with
    the assignments it made; the values assigned are given by functions of
    the text alone. *)

Lemma bind_run {A B} (m : M A) (f : A -> M B) r a r' :
  m r = (Ok a, r') -> bind m f r = f a r'.
Proof. intros H. unfold bind. by rewrite H. Qed.

Lemma div_gt_0_7_run a n :
  0 < a -> a <= n -> div_gt_0_7 a n = Ok (7 * n <? 10 * a).
Proof. intros. destruct n; [lia | done]. Qed.

Lemma name_loop_run ls r :
  name_loop ls r = (Ok tt, set_opt "fullname" (List.find is_name ls) r).
Proof.
  induction ls as [|ln rest IH]; [done|].
  cbn [name_loop List.find]. unfold is_name.
  destruct (_ || _ || _); [exact IH|]. cbn [negb andb].
  destruct (_ && _ && _); [|exact IH]. cbn [andb].
  set (a := Str.count _ ln).
  destruct (0 <? a) eqn:Ha.
  - apply Nat.ltb_lt in Ha.
    unfold bind, lift.
    rewrite div_gt_0_7_run by (done || apply count_le_len).
    cbn [andb]. destruct (_ <? _); [done | exact IH].
  - cbn [andb]. exact IH.
Qed.

Lemma email_stage_run t r :
  email_stage t r = (Ok tt, set_opt "email" (Re.search email_re t) r).
Proof. unfold email_stage. by destruct (Re.search _ _). Qed.

Lemma phone_stage_run t r :
  phone_stage t r = (Ok tt, set_opt "phone" (phone_of t) r).
Proof. unfold phone_stage, phone_of. by destruct (Str.truthy _). Qed.

Lemma social_stage_run key site t r :
  social_stage key site t r = (Ok tt, set_opt key (social_of site t) r).
Proof. unfold social_stage, social_of. by destruct (Re.search _ _). Qed.

Lemma city_loop_run cs ln r :
  city_loop cs ln r =
  (Ok tt,
   if existsb (fun city => Str.contains city (Str.lower ln) && (Str.len ln <? 80)) cs
   then <["location":=ln]> r else r).
Proof.
  induction cs as [|c cs IH]; [done|].
  cbn [city_loop existsb]. by destruct (_ && _).
Qed.

Lemma city_line_truthy ln : city_line ln = true -> Str.truthy ln = true.
Proof. by destruct ln. Qed.

Lemma location_loop_run lines (r : dict) :
  r !! "location" = Some "" ->
  location_loop lines r = (Ok tt, set_opt "location" (List.find city_line lines) r).
Proof.
  intros Hr. induction lines as [|ln rest IH]; [done|].
  cbn [location_loop List.find].
  rewrite (bind_run _ _ _ _ _ (city_loop_run _ _ _)).
  fold (city_line ln). destruct (city_line ln) eqn:E.
  - unfold bind, getitem. rewrite lookup_insert_eq.
    by rewrite (city_line_truthy _ E).
  - unfold bind, getitem. rewrite Hr. exact IH.
Qed.

Lemma location_fallback_run ls r :
  location_fallback ls r = (Ok tt, set_opt "location" (List.find comma_line ls) r).
Proof.
  induction ls as [|ln rest IH]; [done|].
  cbn [location_fallback List.find]. fold (comma_line ln).
  by destruct (comma_line ln).
Qed.

Lemma location_stage_run lines (r : dict) :
  r !! "location" = Some "" ->
  location_stage lines r = (Ok tt, set_opt "location" (location_of lines) r).
Proof.
  intros Hr. unfold location_stage, location_of.
  rewrite (bind_run _ _ _ _ _ (location_loop_run _ _ Hr)).
  destruct (List.find city_line lines) as [ln|] eqn:E.
  - apply find_some in E as [_ E].
    unfold bind, getitem. rewrite lookup_set_opt_eq.
    by rewrite (city_line_truthy _ E).
  - unfold bind, getitem. cbn [set_opt]. rewrite Hr. cbn [Str.truthy negb].
    apply location_fallback_run.
Qed.

(** *** section fields *)

Lemma summary_stage_run lines sp r :
  summary_stage lines sp r =
  (Ok tt, set_opt "career_objective" (career_objective_of lines sp)
            (set_opt "summary" (summary_of lines sp) r)).
Proof.
  unfold summary_stage, career_objective_of, summary_of.
  destruct (nonempty _); [|by destruct (existsb _ _)].
  unfold bind, setitem. by destruct (existsb _ _).
Qed.

Lemma skills_stage_run lines sp r :
  skills_stage lines sp r = (Ok tt, set_opt "skills" (skills_of lines sp) r).
Proof. unfold skills_stage, skills_of. by destruct (nonempty _). Qed.

Lemma eqb_refl s : Str.eqb s s = true.
Proof. apply String.eqb_refl. Qed.

Lemma eqb_eq a b : Str.eqb a b = true -> a = b.
Proof. apply String.eqb_eq. Qed.

(** [lines.index(ln)] of the first line that satisfies [p] is the index of
    that line: an equal line before it would satisfy [p] as well *)
Lemma list_index_find p (l : list string) ln :
  List.find p l = Some ln ->
  exists idx, first_index p l = Some idx /\ list_index ln l = Ok idx.
Proof.
  induction l as [|x rest IH]; [done|].
  cbn [List.find first_index list_index].
  destruct (p x) eqn:Hx.
  - intros [= ->]. exists 0. by rewrite eqb_refl.
  - intros Hf. destruct (IH Hf) as (i & Hi & Hl).
    exists (S i). rewrite Hi, Hl.
    destruct (Str.eqb x ln) eqn:E; [|done].
    apply eqb_eq in E. subst x.
    apply find_some in Hf as [_ Hf]. congruence.
Qed.

Lemma first_index_find_none {A} (p : A -> bool) l :
  List.find p l = None -> first_index p l = None.
Proof.
  induction l as [|x rest IH]; [done|]. cbn.
  destruct (p x); [done|]. intros H. by rewrite IH.
Qed.

Lemma experience_fallback_scan lines todo r :
  experience_fallback lines todo r =
  match List.find exp_marker todo with
  | Some ln =>
      match list_index ln lines with
      | Ok idx => (Ok (py_slice (idx + 1) (idx + 15) lines), r)
      | Raise e => (Raise e, r)
      end
  | None => (Ok [], r)
  end.
Proof.
  induction todo as [|ln rest IH]; [done|].
  cbn [experience_fallback List.find]. fold (exp_marker ln).
  destruct (exp_marker ln); [|exact IH].
  unfold bind, lift. by destruct (list_index ln lines).
Qed.

Lemma experience_fallback_run lines r :
  experience_fallback lines lines r = (Ok (fallback_lines lines), r).
Proof.
  rewrite experience_fallback_scan. unfold fallback_lines.
  destruct (List.find exp_marker lines) as [ln|] eqn:E.
  - destruct (list_index_find _ _ _ E) as (idx & -> & ->). done.
  - by rewrite (first_index_find_none _ _ E).
Qed.

Lemma experience_stage_run lines sp r :
  experience_stage lines sp r =
  (Ok tt, set_opt "experience" (experience_of lines sp) r).
Proof.
  unfold experience_stage, experience_of, experience_lines.
  destruct (nonempty (get_section_content _ _ _ _)) eqn:E; cbn [negb].
  - unfold bind, ret. rewrite E. done.
  - rewrite (bind_run _ _ _ _ _ (experience_fallback_run _ _)).
    by destruct (nonempty (fallback_lines lines)).
Qed.

Lemma education_stage_run lines sp r :
  education_stage lines sp r =
  (Ok tt, set_opt "education" (education_of lines sp) r).
Proof.
  unfold education_stage, education_of. cbn zeta.
  by destruct (nonempty (if negb _ then _ else _)).
Qed.

Lemma plain_stage_run lines sp key max_lines sep cap r :
  plain_stage lines sp key max_lines sep cap r =
  (Ok tt, set_opt key (plain_of lines sp key max_lines sep cap) r).
Proof. unfold plain_stage, plain_of. by destruct (nonempty _). Qed.

(** *** title *)

Lemma title_loop_run ls r :
  title_loop ls r = (Ok tt, set_opt "title" (List.find title_line ls) r).
Proof.
  induction ls as [|ln rest IH]; [done|].
  cbn [title_loop List.find]. fold (title_line ln).
  by destruct (title_line ln).
Qed.

(** a line that holds a title keyword is not the text ["My Resume"] *)
Lemma title_line_not_my_resume ln :
  title_line ln = true -> Str.eqb ln "My Resume" = false.
Proof.
  intros H. destruct (Str.eqb ln "My Resume") eqn:E; [|done].
  apply eqb_eq in E. subst ln. vm_compute in H. done.
Qed.

(** starting from the empty default title, the keyword sniffing on the
    skills text is never reached: the title is a keyword line or stays
    empty, and neither is ["My Resume"] *)
Lemma title_stage_run lines (r : dict) :
  r !! "title" = Some "" ->
  title_stage lines r =
  (Ok tt, set_opt "title" (List.find title_line (take 25 lines)) r).
Proof.
  intros Hr. unfold title_stage.
  unfold bind at 1. unfold getitem at 1. rewrite Hr.
  cbn [Str.truthy negb]. unfold bind at 1. unfold ret at 1.
  rewrite (bind_run _ _ _ _ _ (title_loop_run _ _)).
  unfold bind, getitem. rewrite lookup_set_opt_eq.
  destruct (List.find title_line (take 25 lines)) as [ln|] eqn:E.
  - apply find_some in E as [_ E].
    by rewrite (title_line_not_my_resume _ E).
  - by rewrite Hr.
Qed.

(** *** the whole body *)

Ltac through_set_opt :=
  repeat (rewrite lookup_set_opt_ne by discriminate).

(** the text part of the body never raises, and leaves [fields_of] *)
Lemma process_text_run all_text :
  process_text all_text get_default_16_fields = (Ok tt, fields_of all_text).
Proof.
  unfold process_text, fields_of. cbn zeta.
  destruct (negb (Str.truthy (Str.strip all_text))); [done|].
  set (t := Str.strip all_text).
  set (lines := normalize_lines t).
  destruct (negb (nonempty lines)); [done|].
  unfold assembled. cbn zeta.
  rewrite (bind_run _ _ _ _ _ (name_loop_run _ _)).
  rewrite (bind_run _ _ _ _ _ (email_stage_run _ _)).
  rewrite (bind_run _ _ _ _ _ (phone_stage_run _ _)).
  match goal with
  | |- bind (location_stage ?l) _ ?r = _ =>
      assert (Hloc : r !! "location" = Some "")
        by (through_set_opt; reflexivity);
      rewrite (bind_run _ _ _ _ _ (location_stage_run l r Hloc)); clear Hloc
  end.
  rewrite (bind_run _ _ _ _ _ (social_stage_run _ _ _ _)).
  rewrite (bind_run _ _ _ _ _ (social_stage_run _ _ _ _)).
  rewrite (bind_run _ _ _ _ _ (summary_stage_run _ _ _)).
  rewrite (bind_run _ _ _ _ _ (skills_stage_run _ _ _)).
  rewrite (bind_run _ _ _ _ _ (experience_stage_run _ _ _)).
  rewrite (bind_run _ _ _ _ _ (education_stage_run _ _ _)).
  do 4 rewrite (bind_run _ _ _ _ _ (plain_stage_run _ _ _ _ _ _ _)).
  apply title_stage_run. through_set_opt. reflexivity.
Qed.

Lemma try_body_acquired pdf all_text :
  acquire pdf = Ok all_text ->
  try_body pdf get_default_16_fields = (Ok tt, fields_of all_text).
Proof.
  intros H. unfold try_body, bind, lift. rewrite H. apply process_text_run.
Qed.

Lemma try_body_failed pdf e :
  acquire pdf = Raise e ->
  try_body pdf get_default_16_fields = (Raise e, get_default_16_fields).
Proof. intros H. unfold try_body, bind, lift. by rewrite H. Qed.

Lemma extract_acquired pdf all_text :
  acquire pdf = Ok all_text -> extract_resume_from_pdf pdf = fields_of all_text.
Proof.
  intros H. unfold extract_resume_from_pdf. by rewrite (try_body_acquired _ _ H).
Qed.

Lemma extract_failed pdf e :
  acquire pdf = Raise e -> extract_resume_from_pdf pdf = get_default_16_fields.
Proof.
  intros H. unfold extract_resume_from_pdf. by rewrite (try_body_failed _ _ H).
Qed.

(** what holds of the defaults and of every [fields_of] holds of every
    mapping the extractor returns *)
Lemma extract_cases (P : dict -> Prop) :
  P get_default_16_fields ->
  (forall all_text, P (fields_of all_text)) ->
  forall pdf, P (extract_resume_from_pdf pdf).
Proof.
  intros Hd Hf pdf. destruct (acquire pdf) as [t|e] eqn:E.
  - rewrite (extract_acquired _ _ E). apply Hf.
  - rewrite (extract_failed _ _ E). apply Hd.
Qed.

(** what holds of [r] and of every [assembled] dict over [r] holds of
    [fields_of] *)
Lemma fields_of_cases (P : dict -> Prop) :
  P get_default_16_fields ->
  (forall t lines, P (assembled t lines get_default_16_fields)) ->
  forall all_text, P (fields_of all_text).
Proof.
  intros Hd Ha t. unfold fields_of. cbn zeta.
  destruct (negb _); [done|]. destruct (negb _); [done|]. apply Ha.
Qed.

(** ** The returned mapping *)

Lemma dom_set_opt_field k o (r : dict) :
  k ∈ field_names ->
  dom r = list_to_set field_names ->
  dom (set_opt k o r) = list_to_set field_names.
Proof.
  intros Hk Hr. rewrite dom_set_opt; [done|].
  apply elem_of_dom. rewrite Hr. by apply elem_of_list_to_set.
Qed.

Ltac is_field := repeat first [apply list_elem_of_here | apply list_elem_of_further].

Lemma dom_assembled t lines :
  dom (assembled t lines get_default_16_fields) = list_to_set field_names.
Proof.
  unfold assembled. cbn zeta.
  repeat (apply dom_set_opt_field; [is_field|]).
  apply dom_default.
Qed.

(** C1. For every input the mapping returned by the extractor has exactly
    the 20 enumerated keys, and every one of them is bound to a string, on
    the path through the exception handler as on every other path. *)
Theorem extractor_returns_the_20_keys (pdf : pdf_file) :
  dom (extract_resume_from_pdf pdf) = list_to_set field_names /\
  length field_names = 20 /\
  NoDup field_names /\
  Forall (fun k => exists v : string, extract_resume_from_pdf pdf !! k = Some v)
         field_names.
Proof.
  assert (Hdom : dom (extract_resume_from_pdf pdf) = list_to_set field_names).
  { revert pdf.
    apply (extract_cases (fun r => dom r = list_to_set field_names));
      [apply dom_default|].
    apply (fields_of_cases (fun r => dom r = list_to_set field_names));
      [apply dom_default | apply dom_assembled]. }
  split; [done|]. split; [done|]. split.
  { apply (bool_decide_unpack (NoDup field_names)). by vm_compute. }
  apply Forall_forall. intros k Hk.
  assert (Hin : k ∈ dom (extract_resume_from_pdf pdf))
    by (rewrite Hdom; by apply elem_of_list_to_set).
  apply elem_of_dom in Hin as [v Hv]. by exists v.
Qed.

Lemma default_lookup k : get_default_16_fields !! k = spec_default k.
Proof.
  destruct (existsb (Str.eqb k) field_names) eqn:E.
  - apply existsb_exists in E as (x & Hin & Heq).
    apply eqb_eq in Heq. subst x. cbn in Hin.
    repeat (destruct Hin as [<- | Hin]; [vm_compute; reflexivity|]).
    destruct Hin.
  - unfold spec_default. rewrite E.
    assert (Hk : forall x, In x field_names -> Str.eqb k x = false).
    { intros x Hx. destruct (Str.eqb k x) eqn:Ex; [|done].
      rewrite <- E. symmetry. apply existsb_exists. eauto. }
    rewrite !Hk by (cbn; tauto).
    apply not_elem_of_dom. rewrite dom_default.
    intros Hin%elem_of_list_to_set%list_elem_of_In.
    specialize (Hk k Hin). by rewrite eqb_refl in Hk.
Qed.

(** C2. For an empty or whitespace-only text the extractor returns exactly
    the default mapping: fullname "Your Name", summary the loading notice,
    every other of the 20 keys (title among them) the empty string. *)
Theorem blank_text_returns_defaults (pdf : pdf_file) (all_text : string) :
  acquire pdf = Ok all_text ->
  blank all_text = true ->
  extract_resume_from_pdf pdf = get_default_16_fields /\
  forall k, extract_resume_from_pdf pdf !! k = spec_default k.
Proof.
  intros Hacq Hblank.
  assert (H : extract_resume_from_pdf pdf = get_default_16_fields).
  { rewrite (extract_acquired _ _ Hacq). unfold fields_of. cbn zeta.
    by rewrite (strip_blank _ Hblank). }
  split; [done|]. intros k. rewrite H. apply default_lookup.
Qed.

Lemma blank_text_returns_defaults_witness :
  extract_resume_from_pdf blank_page = get_default_16_fields /\
  forall k, extract_resume_from_pdf blank_page !! k = spec_default k.
Proof.
  apply (blank_text_returns_defaults blank_page
           (nl +:+ " " +:+ nl +:+ "  " +:+ nl)); reflexivity.
Defined.

(** ** Length caps *)

Lemma capped_set_opt_ne k k' o (r : dict) cap :
  k ≠ k' -> capped r k' cap -> capped (set_opt k o r) k' cap.
Proof. intros Hne (v & Hv & Hc). exists v. by rewrite lookup_set_opt_ne. Qed.

Lemma capped_set_opt_eq k o (r : dict) cap :
  (forall v, o = Some v -> Str.len v <= cap) ->
  capped r k cap -> capped (set_opt k o r) k cap.
Proof.
  intros Ho (v & Hv & Hc). unfold capped. rewrite lookup_set_opt_eq.
  destruct o as [w|]; eauto.
Qed.

Lemma take_if_cap (b : bool) cap s v :
  (if b then Some (Str.take cap s) else None) = Some v -> Str.len v <= cap.
Proof.
  destruct b; [|done]. intros H.
  assert (v = Str.take cap s) as -> by congruence. apply len_take.
Qed.

Lemma summary_of_cap lines sp v : summary_of lines sp = Some v -> Str.len v <= 1000.
Proof. apply take_if_cap. Qed.

Lemma skills_of_cap lines sp v : skills_of lines sp = Some v -> Str.len v <= 500.
Proof. apply take_if_cap. Qed.

Lemma experience_of_cap lines sp v :
  experience_of lines sp = Some v -> Str.len v <= 1500.
Proof. apply take_if_cap. Qed.

Lemma education_of_cap lines sp v :
  education_of lines sp = Some v -> Str.len v <= 1000.
Proof. apply take_if_cap. Qed.

Lemma plain_of_cap lines sp key max_lines sep cap v :
  plain_of lines sp key max_lines sep cap = Some v -> Str.len v <= cap.
Proof. apply take_if_cap. Qed.

Create HintDb caps.
#[local] Hint Resolve summary_of_cap skills_of_cap experience_of_cap
  education_of_cap plain_of_cap : caps.

Ltac capped_default := eexists; split; [reflexivity | vm_compute; lia].

Ltac capped_assembled :=
  unfold assembled; cbn zeta;
  repeat (apply capped_set_opt_ne; [discriminate|]);
  apply capped_set_opt_eq; [eauto with caps|];
  repeat (apply capped_set_opt_ne; [discriminate|]);
  capped_default.

(** C3. For every input the returned values respect the caps: summary at
    most 1000 characters, skills 500, experience 1500, education 1000,
    projects 800, certifications 800, languages 300, awards 500. *)
Theorem field_length_caps (pdf : pdf_file) :
  within_caps (extract_resume_from_pdf pdf).
Proof.
  revert pdf. apply extract_cases; [|apply fields_of_cases]; unfold within_caps.
  - repeat split; capped_default.
  - repeat split; capped_default.
  - intros t lines. repeat split; capped_assembled.
Qed.

(** ** Failure *)

(** When the body of the [try] raises, it raised in the text acquisition,
    which runs before the first assignment to the result, so the dict the
    handler is left with is the default one; the text part of the body
    never raises. *)
Lemma failure_leaves_defaults (pdf : pdf_file) (e : exn) :
  fst (try_body pdf get_default_16_fields) = Raise e ->
  acquire pdf = Raise e /\
  extract_resume_from_pdf pdf = get_default_16_fields /\
  forall all_text, fst (process_text all_text get_default_16_fields) = Ok tt.
Proof.
  intros H. destruct (acquire pdf) as [t|e'] eqn:E.
  - by rewrite (try_body_acquired _ _ E) in H.
  - rewrite (try_body_failed _ _ E) in H. cbn in H.
    assert (e' = e) as -> by congruence.
    split; [done|]. split; [by apply (extract_failed _ e)|].
    intros all_text. by rewrite process_text_run.
Qed.

(** a call returns the dict of [extract_resume_from_pdf], when it returns *)
Lemma call_returns encodable pdf r :
  extract_resume_from_pdf_call encodable pdf = Ok r ->
  r = extract_resume_from_pdf pdf.
Proof.
  unfold extract_resume_from_pdf_call, extract_resume_from_pdf. cbn zeta.
  destruct (try_body pdf get_default_16_fields) as [[u|e] r'].
  - by intros [= <-].
  - destruct (print_error encodable); [by intros [= <-] | done].
Qed.

(** with a stdout that can encode the message every call returns *)
Lemma call_with_encodable_message pdf :
  extract_resume_from_pdf_call true pdf = Ok (extract_resume_from_pdf pdf).
Proof.
  unfold extract_resume_from_pdf_call, extract_resume_from_pdf. cbn zeta.
  by destruct (try_body pdf get_default_16_fields) as [[u|e] r'].
Qed.

(** with a stdout that cannot, a call raises exactly when the text
    acquisition does *)
Lemma call_with_unencodable_message pdf :
  extract_resume_from_pdf_call false pdf =
  match acquire pdf with
  | Ok _ => Ok (extract_resume_from_pdf pdf)
  | Raise _ => Raise UnicodeEncodeError
  end.
Proof.
  unfold extract_resume_from_pdf_call, extract_resume_from_pdf. cbn zeta.
  destruct (acquire pdf) as [t|e] eqn:E.
  - by rewrite (try_body_acquired _ _ E).
  - by rewrite (try_body_failed _ _ E).
Qed.

(** C5. The specification has the extractor catch whatever a step raises
    and return the default mapping, never letting an exception out.  On a
    file whose second page cannot be read the acquisition raises and the
    handler runs; with a stdout that can encode the handler's message the
    call returns the defaults, and with one that cannot the [print] of the
    handler raises [UnicodeEncodeError], which leaves the function. *)
Theorem handler_print_lets_an_exception_out :
  acquire broken_pdf = Raise PdfError /\
  extract_resume_from_pdf_call true broken_pdf = Ok get_default_16_fields /\
  extract_resume_from_pdf_call false broken_pdf = Raise UnicodeEncodeError.
Proof. repeat split; reflexivity. Qed.

(** ** Name detection *)

(** C10. The ratio [alpha_count / len(ln)] of the name detection never
    divides by zero: every normalized line is non-empty, the division is
    reached with [0 < alpha_count <= len(ln)] only, and the scan returns
    normally on any list of lines. *)
Theorem name_ratio_never_divides_by_zero (all_text : string) :
  Forall (fun ln => 0 < Str.len ln) (normalize_lines (Str.strip all_text)) /\
  (forall ln, Str.count (fun c => Char.isalpha c || Char.isspace c) ln <= Str.len ln) /\
  (forall a n, 0 < a -> a <= n -> div_gt_0_7 a n <> Raise ZeroDivisionError) /\
  (forall ls r, fst (name_loop ls r) = Ok tt).
Proof.
  split; [|split; [|split]].
  - eapply Forall_impl; [apply normalize_lines_truthy|].
    intros ln. apply truthy_len.
  - intros ln. apply count_le_len.
  - intros a n Ha Hn. by rewrite div_gt_0_7_run.
  - intros ls r. by rewrite name_loop_run.
Qed.

(** ** Placeholders *)

Lemma split_scan_empty : Str.split "" = [].
Proof. reflexivity. Qed.

Lemma is_name_words ln :
  is_name ln = true -> 2 <= length (Str.split ln) <= 4 /\ ln <> "".
Proof.
  unfold is_name. intros H.
  apply andb_prop in H as [H _]. apply andb_prop in H as [_ H].
  apply andb_prop in H as [H _]. apply andb_prop in H as [H2 H4].
  apply Nat.leb_le in H2, H4. split; [lia|].
  intros ->. rewrite split_scan_empty in H2. cbn in H2. lia.
Qed.

Lemma keep_line_len ln : keep_line ln = true -> 10 <= Str.len ln.
Proof.
  unfold keep_line. intros [H _]%andb_prop.
  apply negb_true_iff, Nat.ltb_ge in H. done.
Qed.

Lemma get_section_content_len lines sp field max_lines :
  Forall (fun ln => 10 <= Str.len ln)
         (get_section_content lines sp field max_lines).
Proof.
  unfold get_section_content.
  destruct (section_bounds _ _ _ _) as [[start end_]|]; [|constructor].
  apply Forall_forall. intros ln Hin%list_elem_of_In.
  apply filter_In in Hin as [_ Hk]. by apply keep_line_len.
Qed.

Lemma truthy_ne s : Str.truthy s = true -> s <> "".
Proof. by destruct s. Qed.

Lemma join_take_truthy cap sep (l : list string) :
  0 < cap -> nonempty l = true -> Forall (fun ln => 10 <= Str.len ln) l ->
  Str.truthy (Str.take cap (Str.join sep l)) = true.
Proof.
  intros Hc Hl Hall. destruct l as [|x l]; [done|].
  apply take_truthy; [done|]. apply join_truthy.
  apply truthy_len. apply Forall_cons in Hall as [Hx _]. lia.
Qed.

Lemma fullname_ok_default : fullname_ok get_default_16_fields.
Proof. exists name_placeholder. split; [reflexivity|]. split; [done | by left]. Qed.

Lemma summary_ok_default : summary_ok get_default_16_fields.
Proof. exists summary_placeholder. split; [reflexivity|]. split; [done | by left]. Qed.

Lemma fullname_ok_assembled t lines :
  fullname_ok (assembled t lines get_default_16_fields).
Proof.
  unfold fullname_ok, assembled. cbn zeta. through_set_opt.
  rewrite lookup_set_opt_eq.
  destruct (List.find is_name (take 15 lines)) as [ln|] eqn:E.
  - apply find_some in E as [_ E]. apply is_name_words in E as [Hw Hne].
    exists ln. auto.
  - apply fullname_ok_default.
Qed.

Lemma summary_ok_assembled t lines :
  summary_ok (assembled t lines get_default_16_fields).
Proof.
  unfold summary_ok, assembled. cbn zeta. through_set_opt.
  rewrite lookup_set_opt_eq. unfold summary_of. cbn zeta.
  set (sl := get_section_content _ _ _ _).
  destruct (nonempty sl) eqn:E.
  - pose proof (get_section_content_len lines (locate_headers lines) "summary" 10)
      as Hlen. fold sl in Hlen.
    eexists. split; [reflexivity|]. split.
    + apply truthy_ne, join_take_truthy; [lia | done | done].
    + right. exists sl. split; [by destruct sl | done].
  - through_set_opt. apply summary_ok_default.
Qed.

(** C9. For every input the returned fullname and summary are never the
    empty string: fullname is the placeholder or a line of 2 to 4 words,
    summary is the placeholder or the capped space-join of a non-empty list
    of section lines of at least 10 characters each. *)
Theorem fullname_and_summary_never_empty (pdf : pdf_file) :
  fullname_ok (extract_resume_from_pdf pdf) /\
  summary_ok (extract_resume_from_pdf pdf).
Proof.
  revert pdf.
  apply (extract_cases (fun r => fullname_ok r /\ summary_ok r)).
  - split; [apply fullname_ok_default | apply summary_ok_default].
  - apply (fields_of_cases (fun r => fullname_ok r /\ summary_ok r)).
    + split; [apply fullname_ok_default | apply summary_ok_default].
    + intros t lines.
      split; [apply fullname_ok_assembled | apply summary_ok_assembled].
Qed.

(** ** Sections *)

Lemma fields_of_lines all_text :
  lines_of all_text <> [] ->
  fields_of all_text =
  assembled (Str.strip all_text) (lines_of all_text) get_default_16_fields.
Proof.
  unfold fields_of, lines_of. cbn zeta. intros Hl.
  destruct (Str.strip all_text) as [|c s] eqn:E; [done|].
  cbn [Str.truthy negb].
  destruct (normalize_lines (String c s)); done.
Qed.

Lemma first_header_none patterns lines i :
  Forall (fun ln => existsb (fun pattern => Re.found pattern ln) patterns = false)
         lines ->
  first_header patterns lines i = None.
Proof.
  intros H. revert i. induction H as [|ln rest Hln _ IH]; intros i; [done|].
  cbn [first_header]. rewrite Hln. apply IH.
Qed.

Lemma position_of_omap_none field lines sps :
  (forall patterns, In (field, patterns) sps ->
                    first_header patterns lines 0 = None) ->
  position_of field
    (omap (fun '(f, patterns) =>
             match first_header patterns lines 0 with
             | Some i => Some (f, i)
             | None => None
             end) sps) = None.
Proof.
  induction sps as [|[f ps] sps IH]; intros H; [done|].
  cbn [omap list_omap].
  destruct (first_header ps lines 0) as [i|] eqn:E.
  - cbn [position_of]. destruct (Str.eqb f field) eqn:Ef.
    + apply eqb_eq in Ef. subst f.
      rewrite (H ps) in E; [done | by left].
    + apply IH. intros p Hp. apply H. by right.
  - apply IH. intros p Hp. apply H. by right.
Qed.

Lemma experience_entry patterns :
  In ("experience", patterns) section_patterns ->
  patterns = patterns_of "experience".
Proof.
  unfold section_patterns. cbn [In]. intros H.
  repeat (destruct H as [H|H]; [by (discriminate H || (injection H as <-))|]).
  destruct H.
Qed.

Lemma no_experience_header lines :
  Forall (fun ln => is_header "experience" ln = false) lines ->
  position_of "experience" (locate_headers lines) = None.
Proof.
  intros H. apply position_of_omap_none.
  intros ps ->%experience_entry. by apply first_header_none.
Qed.

Lemma first_index_spec {A} (p : A -> bool) (l : list A) idx :
  first_index p l = Some idx ->
  exists x, l !! idx = Some x /\ p x = true /\ List.find p l = Some x /\
            forall j y, j < idx -> l !! j = Some y -> p y = false.
Proof.
  revert idx. induction l as [|x rest IH]; intros idx; [done|].
  cbn [first_index List.find]. destruct (p x) eqn:Hx.
  - intros [= <-]. exists x. repeat split; try done. intros j y Hj. lia.
  - destruct (first_index p rest) as [i|]; [|done].
    intros [= <-]. destruct (IH i eq_refl) as (y & Hy & Hp & Hf & Hmin).
    exists y. repeat split; try done.
    intros [|j] z Hj; cbn; [by intros [= <-]|].
    apply Hmin. lia.
Qed.

Lemma first_index_Exists {A} (p : A -> bool) (l : list A) :
  Exists (fun x => p x = true) l -> exists idx, first_index p l = Some idx.
Proof.
  induction 1 as [x rest Hx|x rest _ [i IH]]; cbn [first_index].
  - rewrite Hx. eauto.
  - destruct (p x); [eauto|]. rewrite IH. eauto.
Qed.

Lemma py_slice_14 {A} idx (l : list A) :
  py_slice (idx + 1) (idx + 15) l = take 14 (drop (S idx) l).
Proof.
  unfold py_slice. replace (idx + 15 - (idx + 1)) with 14 by lia.
  by replace (idx + 1) with (S idx) by lia.
Qed.

Lemma join_take_truthy' cap sep (l : list string) :
  0 < cap -> l <> [] -> Forall (fun ln => Str.truthy ln = true) l ->
  Str.truthy (Str.take cap (Str.join sep l)) = true.
Proof.
  intros Hc Hl Hall. destruct l as [|x l]; [done|].
  apply take_truthy; [done|]. apply join_truthy.
  by apply Forall_cons in Hall as [Hx _].
Qed.

Lemma take_empty n : Str.take n "" = "".
Proof. by destruct n. Qed.

(** C7. When no experience header pattern is found in any line, but some
    line of fewer than 70 characters contains "experience" in any case,
    the experience field is the newline-join, capped at 1500 characters, of
    the up to 14 lines after the first such line, whose index is also what
    [lines.index] gives; it is non-empty when a line follows. *)
Theorem experience_fallback_fills_field (pdf : pdf_file) (all_text : string) :
  acquire pdf = Ok all_text ->
  Forall (fun ln => is_header "experience" ln = false) (lines_of all_text) ->
  Exists (fun ln => exp_marker ln = true) (lines_of all_text) ->
  exists idx ln,
    lines_of all_text !! idx = Some ln /\
    exp_marker ln = true /\
    (forall j y, j < idx -> lines_of all_text !! j = Some y -> exp_marker y = false) /\
    list_index ln (lines_of all_text) = Ok idx /\
    extract_resume_from_pdf pdf !! "experience" =
      Some (Str.take 1500
              (Str.join nl (take 14 (drop (S idx) (lines_of all_text))))) /\
    (S idx < length (lines_of all_text) ->
     extract_resume_from_pdf pdf !! "experience" <> Some "").
Proof.
  intros Hacq Hno Hsome.
  destruct (first_index_Exists _ _ Hsome) as [idx Hidx].
  destruct (first_index_spec _ _ _ Hidx) as (ln & Hln & Hp & Hfind & Hmin).
  destruct (list_index_find _ _ _ Hfind) as (idx' & Hidx' & Hindex).
  assert (idx' = idx) as -> by congruence.
  exists idx, ln. do 4 (split; [done|]).
  assert (Hne : lines_of all_text <> []) by (intros E; by rewrite E in Hln).
  rewrite (extract_acquired _ _ Hacq), (fields_of_lines _ Hne).
  set (lines := lines_of all_text) in *.
  unfold assembled. cbn zeta. through_set_opt. rewrite lookup_set_opt_eq.
  unfold experience_of, experience_lines, get_section_content, section_bounds.
  cbn zeta. rewrite (no_experience_header _ Hno). cbn [nonempty negb].
  unfold fallback_lines. rewrite Hidx, py_slice_14.
  set (l := take 14 (drop (S idx) lines)).
  assert (Hl : S idx < length lines -> l <> []).
  { intros Hlt E. apply (f_equal length) in E. unfold l in E.
    rewrite length_take, length_drop in E.
    change (@length string []) with 0 in E. lia. }
  assert (Htruthy : Forall (fun ln => Str.truthy ln = true) l).
  { unfold l. apply Forall_take, Forall_drop, normalize_lines_truthy. }
  destruct l as [|x l'] eqn:El.
  - cbn [nonempty]. through_set_opt. split; [reflexivity|].
    intros Hlt. by destruct (Hl Hlt).
  - cbn [nonempty]. split; [done|]. intros _ E.
    pose proof (join_take_truthy' 1500 nl (x :: l') ltac:(lia) ltac:(done) Htruthy)
      as Ht.
    assert (E' : Str.take 1500 (Str.join nl (x :: l')) = "") by congruence.
    by rewrite E' in Ht.
Qed.

Lemma Forall_false_of_existsb {A} (p : A -> bool) (l : list A) :
  existsb p l = false -> Forall (fun x => p x = false) l.
Proof.
  induction l as [|x l IH]; cbn [existsb]; [constructor|].
  intros [Hx Hl]%orb_false_elim. constructor; auto.
Qed.

Lemma Exists_of_existsb {A} (p : A -> bool) (l : list A) :
  existsb p l = true -> Exists (fun x => p x = true) l.
Proof.
  induction l as [|x l IH]; cbn [existsb]; [done|].
  destruct (p x) eqn:Hx; [by left | right; auto].
Qed.

Lemma experience_fallback_fills_field_witness :
  exists idx ln,
    lines_of (nl +:+ stray_experience) !! idx = Some ln /\
    exp_marker ln = true /\
    (forall j y, j < idx -> lines_of (nl +:+ stray_experience) !! j = Some y ->
                 exp_marker y = false) /\
    list_index ln (lines_of (nl +:+ stray_experience)) = Ok idx /\
    extract_resume_from_pdf (one_page stray_experience) !! "experience" =
      Some (Str.take 1500
              (Str.join nl
                 (take 14 (drop (S idx) (lines_of (nl +:+ stray_experience)))))) /\
    (S idx < length (lines_of (nl +:+ stray_experience)) ->
     extract_resume_from_pdf (one_page stray_experience) !! "experience" <> Some "").
Proof.
  apply (experience_fallback_fills_field (one_page stray_experience)
           (nl +:+ stray_experience)).
  - reflexivity.
  - apply Forall_false_of_existsb. vm_compute. reflexivity.
  - apply Exists_of_existsb. vm_compute. reflexivity.
Defined.

Example stray_experience_field :
  extract_resume_from_pdf (one_page stray_experience) !! "experience" =
  Some ("Managed a fleet of forty trucks" +:+ nl +:+ "Cut fuel costs").
Proof. vm_compute. reflexivity. Qed.

(** ** Summary and career objective *)

Lemma section_of_empty_text all_text field max_lines :
  lines_of all_text = [] -> section_of all_text field max_lines = [].
Proof.
  unfold section_of. intros ->.
  unfold get_section_content, section_bounds, locate_headers.
  by rewrite position_of_omap_none.
Qed.

(** C8. When the summary section slice is non-empty, the returned summary
    is the space-join of its lines capped at 1000 characters; the career
    objective is that same text if some line of the document matches
    [career\s+objective] in any case, and stays empty otherwise. *)
Theorem summary_and_career_objective (pdf : pdf_file) (all_text : string) :
  acquire pdf = Ok all_text ->
  section_of all_text "summary" 10 <> [] ->
  extract_resume_from_pdf pdf !! "summary" =
    Some (Str.take 1000 (Str.join " " (section_of all_text "summary" 10))) /\
  extract_resume_from_pdf pdf !! "career_objective" =
    (if existsb (fun ln => Re.found career_objective_re ln) (lines_of all_text)
     then Some (Str.take 1000 (Str.join " " (section_of all_text "summary" 10)))
     else Some "").
Proof.
  intros Hacq Hsl.
  assert (Hne : lines_of all_text <> []).
  { intros E. by apply Hsl, section_of_empty_text. }
  rewrite (extract_acquired _ _ Hacq), (fields_of_lines _ Hne).
  unfold assembled. cbn zeta.
  assert (Hsum : summary_of (lines_of all_text) (locate_headers (lines_of all_text))
                 = Some (Str.take 1000 (Str.join " " (section_of all_text "summary" 10)))).
  { unfold summary_of. cbn zeta. fold (section_of all_text "summary" 10).
    by destruct (section_of all_text "summary" 10). }
  split.
  - through_set_opt. by rewrite lookup_set_opt_eq, Hsum.
  - through_set_opt. rewrite lookup_set_opt_eq. unfold career_objective_of.
    destruct (existsb _ _); [by rewrite Hsum|].
    through_set_opt. reflexivity.
Qed.

Lemma summary_and_career_objective_witness :
  extract_resume_from_pdf (one_page objective_resume) !! "summary" =
    Some (Str.take 1000
            (Str.join " " (section_of (nl +:+ objective_resume) "summary" 10))) /\
  extract_resume_from_pdf (one_page objective_resume) !! "career_objective" =
    (if existsb (fun ln => Re.found career_objective_re ln)
          (lines_of (nl +:+ objective_resume))
     then Some (Str.take 1000
                  (Str.join " " (section_of (nl +:+ objective_resume) "summary" 10)))
     else Some "").
Proof.
  apply (summary_and_career_objective (one_page objective_resume)
           (nl +:+ objective_resume)).
  - reflexivity.
  - vm_compute. discriminate.
Defined.

Example objective_resume_fields :
  extract_resume_from_pdf (one_page objective_resume) !! "summary" =
    Some "To build reliable payment systems." /\
  extract_resume_from_pdf (one_page objective_resume) !! "career_objective" =
    Some "To build reliable payment systems.".
Proof. vm_compute. split; reflexivity. Qed.

(** ** Section slicing *)

Lemma lower_end_le start end_ items : lower_end start end_ items <= end_.
Proof.
  revert end_. induction items as [|[f pos] items IH]; intros end_; [done|].
  cbn [lower_end]. etrans; [apply IH|].
  destruct (_ && _) eqn:E; [|done].
  apply andb_prop in E as [_ E]. apply Nat.ltb_lt in E. lia.
Qed.

Lemma lower_end_stops start end_ items f pos :
  In (f, pos) items -> start < pos -> lower_end start end_ items <= pos.
Proof.
  revert end_. induction items as [|[g q] items IH]; intros end_ Hin Hlt; [done|].
  cbn [lower_end]. destruct Hin as [[= -> ->]|Hin]; [|by apply IH].
  etrans; [apply lower_end_le|].
  destruct (Nat.ltb_spec start pos); [|lia]. cbn [andb].
  destruct (Nat.ltb_spec pos end_); lia.
Qed.

(** the slice of a field with header at [h] starts at [h + 1] and ends at
    or before every other header whose index exceeds [h + 1]; a header at
    [h + 1] itself fails the test [pos > start] and does not end it *)
Lemma section_bounds_stops lines sp field h other h2 max_lines start end_ :
  position_of field sp = Some h ->
  In (other, h2) sp ->
  h + 1 < h2 ->
  section_bounds lines sp field max_lines = Some (start, end_) ->
  start = h + 1 /\ end_ <= h2.
Proof.
  intros Hpos Hin Hlt. unfold section_bounds. rewrite Hpos. cbn zeta.
  intros [= <- <-]. split; [done|].
  pose proof (lower_end_stops (h + 1) (length lines) sp other h2 Hin Hlt). lia.
Qed.

(** C4. The specification has the slice of a section end at the nearest
    other header after the section's own, so that it never crosses into
    another detected section.  On a text whose summary header (index 0) is
    directly followed by the skills header (index 1), the summary slice is
    [lines[1:3]]: it holds the line at index 2, which lies after the skills
    header, and that line becomes the summary. *)
Theorem slice_crosses_adjacent_header :
  locate_headers (lines_of adjacent_headers) = [("summary", 0); ("skills", 1)] /\
  section_bounds (lines_of adjacent_headers)
    (locate_headers (lines_of adjacent_headers)) "summary" 10 = Some (1, 3) /\
  lines_of adjacent_headers !! 2 = Some "Python, Go, SQL, Docker and more" /\
  section_of adjacent_headers "summary" 10 = ["Python, Go, SQL, Docker and more"] /\
  extract_resume_from_pdf (one_page adjacent_headers) !! "summary" =
    Some "Python, Go, SQL, Docker and more".
Proof. vm_compute. repeat split; reflexivity. Qed.

(** ** Title *)

Lemma title_without_keyword_line pdf all_text :
  acquire pdf = Ok all_text ->
  List.find title_line (take 25 (lines_of all_text)) = None ->
  extract_resume_from_pdf pdf !! "title" = Some "".
Proof.
  intros Hacq Hnone. rewrite (extract_acquired _ _ Hacq).
  destruct (lines_of all_text) as [|l ls] eqn:E.
  - unfold fields_of. cbn zeta. fold (lines_of all_text). rewrite E.
    by destruct (negb _).
  - rewrite fields_of_lines by (by rewrite E).
    unfold assembled. cbn zeta. rewrite lookup_set_opt_eq, E, Hnone.
    through_set_opt. reflexivity.
Qed.

(** C6. The specification has the title fall back to the skills text when
    none of the first 25 lines holds a title keyword.  On a text without
    such a line whose skills are "Python, Django, Flask" that would be
    "Software Developer"; the extractor returns the empty title, since the
    sniffing is guarded by a comparison with "My Resume" and the default
    title is empty. *)
Theorem title_fallback_not_taken :
  List.find title_line (take 25 (lines_of (nl +:+ no_title_resume))) = None /\
  extract_resume_from_pdf (one_page no_title_resume) !! "skills" =
    Some "Python, Django, Flask" /\
  extract_resume_from_pdf (one_page no_title_resume) !! "title" = Some "".
Proof. vm_compute. repeat split; reflexivity. Qed.

(** ** The scenario of the specification *)

Example scenario_fields :
  scenario_result !! "fullname" = Some "Jane Doe" /\
  scenario_result !! "email" = Some "jane.doe@email.com" /\
  scenario_result !! "phone" = Some "+91 9876543210" /\
  scenario_result !! "location" = Some "Bangalore, India" /\
  scenario_result !! "summary" =
    Some "Experienced backend engineer with 5 years building APIs." /\
  scenario_result !! "experience" =
    Some ("Backend Engineer at Foo Corp 2019-2024" +:+ nl +:+
          "Built payment systems." +:+ nl +:+ "github.com/janedoe") /\
  scenario_result !! "github" = Some "https://github.com/janedoe".
Proof. vm_compute. repeat split; reflexivity. Qed.

(** * Further properties *)

(** ** The matcher *)

Lemma app_cons c a b : String c a +:+ b = String c (a +:+ b).
Proof. reflexivity. Qed.

Lemma app_nil_r s : s +:+ "" = s.
Proof. induction s as [|c s IH]; [done|]. by rewrite app_cons, IH. Qed.

Lemma app_assoc a b c : (a +:+ b) +:+ c = a +:+ (b +:+ c).
Proof. induction a as [|x a IH]; [done|]. by rewrite !app_cons, IH. Qed.

Lemma len_app a b : Str.len (a +:+ b) = Str.len a + Str.len b.
Proof.
  unfold Str.len. induction a as [|x a IH]; [done|].
  rewrite app_cons. cbn [String.length]. by rewrite IH.
Qed.

Lemma str_all_app p a b : str_all p (a +:+ b) = str_all p a && str_all p b.
Proof.
  induction a as [|x a IH]; [done|].
  rewrite app_cons. cbn [str_all]. by rewrite IH, andb_assoc.
Qed.

(** a prefix taken off a text, and the rest *)
Lemma take_occurs n s : exists post, s = Str.take n s +:+ post.
Proof.
  revert s. induction n as [|n IH]; intros [|c s]; cbn [Str.take];
    [by exists "" | by eexists | by exists "" |].
  destruct (IH s) as [post Hp]. exists post. by rewrite app_cons, <- Hp.
Qed.

Lemma rep_greedy_shaped cls k (Q : string -> Prop) :
  (forall prev s n, k prev s = Some n -> n <= Str.len s /\ Q (Str.take n s)) ->
  forall s lo hi prev n,
    Re.rep_greedy cls k lo hi prev s = Some n ->
    n <= Str.len s /\
    exists a b,
      Str.take n s = a +:+ b /\ str_all cls a = true /\ lo <= Str.len a /\
      (forall h, hi = Some h -> Str.len a <= h) /\ Q b.
Proof.
  intros Hk.
  assert (Hstop : forall s lo hi prev n,
    match lo with 0 => k prev s | S _ => None end = Some n ->
    n <= Str.len s /\
    exists a b,
      Str.take n s = a +:+ b /\ str_all cls a = true /\ lo <= Str.len a /\
      (forall h, hi = Some h -> Str.len a <= h) /\ Q b).
  { intros s [|lo] hi prev n H; [|done].
    destruct (Hk _ _ _ H) as [Hn HQ]. split; [done|].
    exists "", (Str.take n s). repeat split; try done.
    intros h _. cbn. lia. }
  induction s as [|c s IH]; intros lo hi prev n.
  - cbn [Re.rep_greedy]. apply Hstop.
  - cbn [Re.rep_greedy].
    destruct (cls c && Re.can_take hi) eqn:E; [|apply Hstop].
    destruct (Re.rep_greedy cls k (Nat.pred lo) (Re.dec hi) (Some c) s)
      as [n'|] eqn:En; [|apply Hstop].
    intros [= <-]. apply andb_prop in E as [Hc Hhi].
    destruct (IH _ _ _ _ En) as (Hn & a & b & Hab & Ha & Hlo & Hh & HQ).
    split; [unfold Str.len in *; cbn; lia|].
    exists (String c a), b. cbn [Str.take]. rewrite Hab.
    split; [done|]. split; [cbn; by rewrite Hc|].
    split; [unfold Str.len in *; cbn; lia|]. split; [|done].
    intros h ->. destruct h as [|h]; [done|].
    specialize (Hh h eq_refl). unfold Str.len in *. cbn. lia.
Qed.

(** what [match_here] matches has the shape of the pattern *)
Lemma match_here_shaped re :
  forall prev s n,
    Re.match_here re prev s = Some n ->
    n <= Str.len s /\ shaped re (Str.take n s).
Proof.
  induction re as [|[cls lo hi| | |] re IH]; intros prev s n; cbn [Re.match_here shaped].
  - intros [= <-]. split; [lia | by destruct s].
  - intros H. exact (rep_greedy_shaped cls _ (shaped re) IH _ _ _ _ _ H).
  - destruct prev; [done | apply IH].
  - destruct (Re.at_eol s); [apply IH | done].
  - destruct (xorb _ _); [apply IH | done].
Qed.

Lemma search_from_occurs re :
  forall s prev m,
    Re.search_from re prev s = Some m -> occurs_in m s /\ shaped re m.
Proof.
  induction s as [|c s IH]; intros prev m; cbn [Re.search_from].
  - destruct (Re.match_here re prev "") as [n|] eqn:E; [|done].
    intros [= <-]. split; [|by apply (match_here_shaped _ _ _ _ E)].
    exists "", "". by destruct n.
  - destruct (Re.match_here re prev (String c s)) as [n|] eqn:E.
    + intros [= <-]. split; [|by apply (match_here_shaped _ _ _ _ E)].
      destruct (take_occurs n (String c s)) as [post Hp].
      exists "", post. exact Hp.
    + intros H. destruct (IH _ _ H) as [(pre & post & ->) Hs].
      split; [|done]. by exists (String c pre), post.
Qed.

(** the text [re.search] returns occurs in the subject and has the shape
    of the pattern *)
Lemma search_occurs re s m :
  Re.search re s = Some m -> occurs_in m s /\ shaped re m.
Proof. apply search_from_occurs. Qed.

Lemma in_all_ascii c : In c all_ascii.
Proof.
  unfold all_ascii. rewrite <- (ascii_nat_embedding c).
  apply in_map, in_seq. pose proof (nat_ascii_bounded c). lia.
Qed.

Lemma class_sub_spec p q :
  class_sub p q = true -> forall c, p c = true -> q c = true.
Proof.
  unfold class_sub. rewrite forallb_forall. intros H c Hp.
  specialize (H c (in_all_ascii c)). by rewrite Hp in H.
Qed.

Lemma str_all_sub p q s :
  class_sub p q = true -> str_all p s = true -> str_all q s = true.
Proof.
  intros Hsub. induction s as [|c s IH]; [done|]. cbn [str_all].
  intros [Hc Hs]%andb_prop. by rewrite (class_sub_spec _ _ Hsub c Hc), IH.
Qed.

(** a match of a pattern whose classes lie within [q] has its characters
    in [q] *)
Lemma shaped_within q re :
  re_within q re = true -> forall m, shaped re m -> str_all q m = true.
Proof.
  induction re as [|[cls lo hi| | |] re IH]; cbn [re_within forallb shaped].
  - by intros _ m ->.
  - intros [Hc Hre]%andb_prop m (a & b & -> & Ha & _ & _ & Hb).
    rewrite str_all_app, (str_all_sub _ _ _ Hc Ha). by apply IH.
  - intros Hre. by apply IH.
  - intros Hre. by apply IH.
  - intros Hre. by apply IH.
Qed.

Lemma len_0 s : Str.len s = 0 -> s = "".
Proof. by destruct s. Qed.

(** the one text a one-character literal matches *)
Lemma shaped_chr c a :
  str_all (Re.chr c) a = true -> 1 <= Str.len a ->
  (forall h, Some 1 = Some h -> Str.len a <= h) -> a = String c "".
Proof.
  intros Ha Hlo Hhi. specialize (Hhi 1 eq_refl).
  destruct a as [|x [|y a]]; unfold Str.len in *; cbn in Hlo, Hhi; try lia.
  cbn in Ha. rewrite andb_true_r in Ha.
  apply Ascii.eqb_eq in Ha. by subst.
Qed.

(** the texts a literal matches *)
Lemma shaped_lit w re m :
  shaped (Re.lit w ++ re) m -> exists b, m = w +:+ b /\ shaped re b.
Proof.
  revert m. induction w as [|c w IH]; intros m; cbn [Re.lit app shaped].
  - intros H. by exists m.
  - intros (a & b & -> & Ha & Hlo & Hhi & Hb).
    rewrite (shaped_chr _ _ Ha Hlo Hhi).
    destruct (IH _ Hb) as (b' & -> & Hb'). by exists b'.
Qed.

Lemma lower_app a b : Str.lower (a +:+ b) = Str.lower a +:+ Str.lower b.
Proof.
  unfold Str.lower. induction a as [|x a IH]; [done|].
  rewrite app_cons. cbn [Str.map]. by rewrite IH.
Qed.

(** the texts a literal matches with IGNORECASE: the same text up to case *)
Lemma shaped_ilit w re m :
  shaped (Re.ilit w ++ re) m ->
  exists a b, m = a +:+ b /\ Str.lower a = Str.lower w /\ shaped re b.
Proof.
  revert m. induction w as [|c w IH]; intros m; cbn [Re.ilit app shaped].
  - intros H. by exists "", m.
  - intros (a & b & -> & Ha & Hlo & Hhi & Hb).
    specialize (Hhi 1 eq_refl).
    destruct a as [|x [|y a]]; unfold Str.len in *; cbn in Hlo, Hhi; try lia.
    cbn in Ha. rewrite andb_true_r in Ha. apply Ascii.eqb_eq in Ha.
    destruct (IH _ Hb) as (a' & b' & -> & Hl & Hb').
    exists (String x a'), b'. split; [done|]. split; [|done].
    unfold Str.lower in *. cbn [Str.map]. by rewrite Ha, Hl.
Qed.

Lemma count_app p a b : Str.count p (a +:+ b) = Str.count p a + Str.count p b.
Proof.
  induction a as [|x a IH]; [done|].
  rewrite app_cons. cbn [Str.count]. rewrite IH. lia.
Qed.

Lemma count_none p s :
  str_all (fun c => negb (p c)) s = true -> Str.count p s = 0.
Proof.
  induction s as [|c s IH]; [done|]. cbn [str_all Str.count].
  intros [Hc Hs]%andb_prop. apply negb_true_iff in Hc. rewrite Hc. by rewrite IH.
Qed.

(** ** Stripping *)

Lemma lstrip_suffix s : exists pre, s = pre +:+ Str.lstrip s.
Proof.
  induction s as [|c s [pre IH]]; [by exists ""|]. cbn [Str.lstrip].
  destruct (Char.isspace c); [|by exists ""].
  exists (String c pre). by rewrite app_cons, <- IH.
Qed.

Lemma rstrip_prefix s : exists post, s = Str.rstrip s +:+ post.
Proof.
  induction s as [|c s [post IH]]; [by exists ""|]. cbn [Str.rstrip]. cbn zeta.
  destruct (Char.isspace c && negb (Str.truthy (Str.rstrip s))).
  - by exists (String c s).
  - exists post. by rewrite app_cons, <- IH.
Qed.

Lemma occurs_in_strip v s : occurs_in v (Str.strip s) -> occurs_in v s.
Proof.
  intros (pre & post & E). unfold Str.strip in E.
  destruct (lstrip_suffix s) as [l Hl].
  destruct (rstrip_prefix (Str.lstrip s)) as [r Hr].
  exists (l +:+ pre), (post +:+ r).
  rewrite Hl at 1. rewrite Hr at 1. rewrite E.
  by rewrite !app_assoc.
Qed.

Lemma occurs_in_refl s : occurs_in s s.
Proof. exists "", "". by rewrite app_nil_r. Qed.

(** ** Contact fields *)

(** the value a stage gave a key whose default is empty, read back from
    the returned mapping *)
Ltac stage_value Hacq Hv Hne :=
  rewrite (extract_acquired _ _ Hacq) in Hv;
  unfold fields_of in Hv; cbn zeta in Hv;
  destruct (negb (Str.truthy _)) in Hv;
    [by (vm_compute in Hv; destruct Hne; congruence)|];
  destruct (negb (nonempty _)) in Hv;
    [by (vm_compute in Hv; destruct Hne; congruence)|];
  unfold assembled in Hv; cbn zeta in Hv;
  repeat (rewrite lookup_set_opt_ne in Hv by discriminate);
  rewrite lookup_set_opt_eq in Hv.

Ltac default_value Hv Hne :=
  repeat (rewrite lookup_set_opt_ne in Hv by discriminate);
  vm_compute in Hv; destruct Hne; congruence.

Lemma email_value pdf all_text v :
  acquire pdf = Ok all_text ->
  extract_resume_from_pdf pdf !! "email" = Some v -> v <> "" ->
  Re.search email_re (Str.strip all_text) = Some v.
Proof.
  intros Hacq Hv Hne. stage_value Hacq Hv Hne.
  destruct (Re.search email_re _) as [m|]; [done|]. default_value Hv Hne.
Qed.

Lemma len_ne s : 1 <= Str.len s -> s <> "".
Proof. destruct s; unfold Str.len; cbn; [lia | done]. Qed.

(** X1. A detected email occurs verbatim in the text and is
    [local@domain.tld]: a non-empty local part and domain, a final label of
    at least two ASCII letters, exactly one [@], no whitespace. *)
Theorem detected_email_is_an_address (pdf : pdf_file) (all_text v : string) :
  acquire pdf = Ok all_text ->
  extract_resume_from_pdf pdf !! "email" = Some v ->
  v <> "" ->
  occurs_in v all_text /\
  Str.count (Char.eqb "@") v = 1 /\
  str_all no_space v = true /\
  exists local domain tld,
    v = local +:+ "@" +:+ domain +:+ "." +:+ tld /\
    local <> "" /\ domain <> "" /\
    2 <= Str.len tld /\ str_all ascii_letter tld = true.
Proof.
  intros Hacq Hv Hne.
  destruct (search_occurs _ _ _ (email_value _ _ _ Hacq Hv Hne)) as [Hocc Hsh].
  split; [by apply occurs_in_strip|].
  assert (Hns : str_all no_space v = true).
  { apply (shaped_within no_space email_re); [by vm_compute | done]. }
  unfold email_re in Hsh. cbn [Re.plus app shaped] in Hsh.
  destruct Hsh as (local & b1 & -> & Hlocal & Hl1 & _ & Hsh).
  apply shaped_lit in Hsh as (b2 & -> & Hsh).
  cbn [app shaped] in Hsh.
  destruct Hsh as (domain & b3 & -> & Hdomain & Hd1 & _ & Hsh).
  apply shaped_lit in Hsh as (b4 & -> & Hsh).
  cbn [Re.at_least shaped] in Hsh.
  destruct Hsh as (tld & e & -> & Htld & Ht2 & _ & ->).
  rewrite app_nil_r in *.
  split; [|split; [done|]].
  - rewrite !count_app.
    rewrite (count_none _ local), (count_none _ domain), (count_none _ tld).
    + reflexivity.
    + eapply str_all_sub; [|exact Htld]. by vm_compute.
    + eapply str_all_sub; [|exact Hdomain]. by vm_compute.
    + eapply str_all_sub; [|exact Hlocal]. by vm_compute.
  - exists local, domain, tld.
    split; [done|]. split; [by apply len_ne|]. split; [by apply len_ne|]. done.
Qed.

Lemma detected_email_is_an_address_witness :
  occurs_in "jane.doe@email.com" (nl +:+ scenario) /\
  Str.count (Char.eqb "@") "jane.doe@email.com" = 1 /\
  str_all no_space "jane.doe@email.com" = true /\
  exists local domain tld,
    "jane.doe@email.com" = local +:+ "@" +:+ domain +:+ "." +:+ tld /\
    local <> "" /\ domain <> "" /\
    2 <= Str.len tld /\ str_all ascii_letter tld = true.
Proof.
  apply (detected_email_is_an_address (one_page scenario)).
  - reflexivity.
  - vm_compute. reflexivity.
  - discriminate.
Defined.

Lemma phone_loop_found ps t :
  Str.truthy (phone_loop ps t) = true ->
  exists p, In p ps /\ Re.search p t = Some (phone_loop ps t).
Proof.
  induction ps as [|p ps IH]; [done|]. cbn [phone_loop].
  destruct (Re.search p t) as [m|] eqn:E.
  - intros _. exists p. split; [by left | done].
  - intros H. destruct (IH H) as (q & Hq & Hs). exists q. split; [by right | done].
Qed.

Lemma phone_value pdf all_text v :
  acquire pdf = Ok all_text ->
  extract_resume_from_pdf pdf !! "phone" = Some v -> v <> "" ->
  exists p, In p phone_patterns /\ Re.search p (Str.strip all_text) = Some v.
Proof.
  intros Hacq Hv Hne. stage_value Hacq Hv Hne. unfold phone_of in Hv. cbn zeta in Hv.
  destruct (Str.truthy (phone_loop _ _)) eqn:E; [|default_value Hv Hne].
  destruct (phone_loop_found _ _ E) as (p & Hp & Hs).
  exists p. split; [done|]. congruence.
Qed.

Lemma exactly_len (a : string) n :
  n <= Str.len a -> (forall h, Some n = Some h -> Str.len a <= h) -> Str.len a = n.
Proof. intros Hlo Hhi. specialize (Hhi n eq_refl). lia. Qed.

(** X2. A detected phone number occurs verbatim in the text and ends in
    ten decimal digits, preceded by nothing, by one 0, or by +91 and at
    most one space or hyphen; it has 10 to 14 characters. *)
Theorem detected_phone_is_a_number (pdf : pdf_file) (all_text v : string) :
  acquire pdf = Ok all_text ->
  extract_resume_from_pdf pdf !! "phone" = Some v ->
  v <> "" ->
  occurs_in v all_text /\
  10 <= Str.len v <= 14 /\
  exists prefix digits,
    v = prefix +:+ digits /\
    Str.len digits = 10 /\ str_all Char.isdecimal digits = true /\
    (prefix = "" \/ prefix = "0" \/
     exists sep, prefix = "+91" +:+ sep /\ Str.len sep <= 1 /\
                 str_all (fun c => Char.isspace c || Char.eqb c "-") sep = true).
Proof.
  intros Hacq Hv Hne.
  destruct (phone_value _ _ _ Hacq Hv Hne) as (p & Hp & Hs).
  destruct (search_occurs _ _ _ Hs) as [Hocc Hsh].
  split; [by apply occurs_in_strip|]. clear Hs Hocc Hv Hacq.
  unfold phone_patterns in Hp. cbn [In] in Hp.
  destruct Hp as [<-|[<-|[<-|[]]]].
  - apply shaped_lit in Hsh as (b & -> & Hsh).
    cbn [Re.opt Re.exactly app shaped] in Hsh.
    destruct Hsh as (sep & b' & -> & Hsep & _ & Hs1 & digits & e & -> & Hd & Hlo & Hhi & ->).
    specialize (Hs1 1 eq_refl). pose proof (exactly_len _ _ Hlo Hhi) as Hlen.
    rewrite app_nil_r. split.
    + rewrite !len_app, Hlen. unfold Str.len at 1 3. cbn [String.length]. lia.
    + exists ("+91" +:+ sep), digits. rewrite app_assoc.
      split; [done|]. split; [done|]. split; [done|].
      right. right. by exists sep.
  - cbn [app shaped] in Hsh. apply (shaped_lit "0") in Hsh as (b & -> & Hsh).
    cbn [Re.exactly app shaped] in Hsh.
    destruct Hsh as (digits & e & -> & Hd & Hlo & Hhi & ->).
    pose proof (exactly_len _ _ Hlo Hhi) as Hlen.
    rewrite app_nil_r. split.
    + rewrite len_app, Hlen. unfold Str.len. cbn [String.length]. lia.
    + exists "0", digits. auto 10.
  - cbn [Re.exactly app shaped] in Hsh.
    destruct Hsh as (digits & e & -> & Hd & Hlo & Hhi & ->).
    pose proof (exactly_len _ _ Hlo Hhi) as Hlen.
    rewrite app_nil_r. split; [lia|].
    exists "", digits. auto 10.
Qed.

Lemma detected_phone_is_a_number_witness :
  occurs_in "+91 9876543210" (nl +:+ scenario) /\
  10 <= Str.len "+91 9876543210" <= 14 /\
  exists prefix digits,
    "+91 9876543210" = prefix +:+ digits /\
    Str.len digits = 10 /\ str_all Char.isdecimal digits = true /\
    (prefix = "" \/ prefix = "0" \/
     exists sep, prefix = "+91" +:+ sep /\ Str.len sep <= 1 /\
                 str_all (fun c => Char.isspace c || Char.eqb c "-") sep = true).
Proof.
  apply (detected_phone_is_a_number (one_page scenario)).
  - reflexivity.
  - vm_compute. reflexivity.
  - discriminate.
Defined.

(** ** Links *)

Lemma startswith_app p x : Str.startswith p (p +:+ x) = true.
Proof.
  induction p as [|c p IH]; [done|].
  rewrite app_cons. cbn [Str.startswith]. unfold Char.eqb.
  by rewrite Ascii.eqb_refl, IH.
Qed.

Lemma social_value key site pdf all_text v :
  key = "linkedin" \/ key = "github" ->
  site = key ->
  acquire pdf = Ok all_text ->
  extract_resume_from_pdf pdf !! key = Some v -> v <> "" ->
  social_of site (Str.strip all_text) = Some v.
Proof.
  intros [-> | ->] -> Hacq Hv Hne; stage_value Hacq Hv Hne.
  - destruct (social_of "linkedin" _); [done|]. default_value Hv Hne.
  - destruct (social_of "github" _); [done|]. default_value Hv Hne.
Qed.

(** a match of [site\.com[^\s]*] is the site name and [.com] up to case,
    followed by characters that are no whitespace *)
Lemma site_re_shape site url :
  shaped (site_re site) url ->
  exists a b, url = a +:+ b /\ Str.lower a = Str.lower (site +:+ ".com").
Proof.
  unfold site_re. intros H.
  apply shaped_ilit in H as (a1 & b1 & -> & Ha1 & H).
  apply shaped_ilit in H as (a2 & b2 & -> & Ha2 & H).
  exists (a1 +:+ a2), b2. rewrite app_assoc. split; [done|].
  by rewrite !lower_app, Ha1, Ha2.
Qed.

Lemma not_http a b :
  (Str.lower a = "linkedin.com" \/ Str.lower a = "github.com") ->
  Str.startswith "http" (a +:+ b) = false.
Proof.
  destruct a as [|x a]; [by intros [|]|].
  rewrite app_cons. cbn [Str.startswith]. unfold Str.lower. cbn [Str.map].
  destruct (Char.eqb "h" x) eqn:E; [|done].
  apply Ascii.eqb_eq in E. subst x. by intros [|].
Qed.

Lemma lower_agrees a w :
  Str.lower a = Str.lower w -> agrees_up_to_case a w = true.
Proof.
  revert w. induction a as [|x a IH]; intros [|c w]; try done.
  unfold Str.lower. cbn [Str.map agrees_up_to_case]. intros [= Hx Ha].
  rewrite Hx. unfold Char.eqb. rewrite Ascii.eqb_refl.
  rewrite (IH w Ha). by destruct (is_ascii x).
Qed.

(** X3. A detected LinkedIn or GitHub link is [https://] followed by text
    that occurs verbatim in the document and holds no whitespace; that
    text begins with as many characters as the site name and [.com] have,
    and each of them that is an ASCII character is the character of the
    site name or of [.com] at its position, in either case. *)
Theorem detected_link_is_https (pdf : pdf_file) (all_text key v : string) :
  key = "linkedin" \/ key = "github" ->
  acquire pdf = Ok all_text ->
  extract_resume_from_pdf pdf !! key = Some v ->
  v <> "" ->
  exists u,
    v = "https://" +:+ u /\
    occurs_in u all_text /\
    str_all no_space u = true /\
    exists a rest,
      u = a +:+ rest /\ agrees_up_to_case a (key +:+ ".com") = true.
Proof.
  intros Hkey Hacq Hv Hne.
  pose proof (social_value key key _ _ _ Hkey eq_refl Hacq Hv Hne) as Hs.
  unfold social_of in Hs.
  destruct (Re.search (site_re key) _) as [url|] eqn:E; [|done].
  destruct (search_occurs _ _ _ E) as [Hocc Hsh].
  destruct (site_re_shape _ _ Hsh) as (a & b & -> & Ha).
  assert (Hl : Str.lower a = key +:+ ".com") by (by destruct Hkey as [-> | ->]).
  rewrite not_http in Hs by (destruct Hkey as [-> | ->]; auto).
  exists (a +:+ b). split; [congruence|].
  split; [by apply occurs_in_strip|]. split.
  - destruct Hkey as [-> | ->];
      (eapply shaped_within; [|exact Hsh]); by vm_compute.
  - exists a, b. split; [done|]. apply lower_agrees.
    rewrite Hl. by destruct Hkey as [-> | ->].
Qed.

Lemma detected_link_is_https_witness :
  exists u,
    "https://github.com/janedoe" = "https://" +:+ u /\
    occurs_in u (nl +:+ scenario) /\
    str_all no_space u = true /\
    exists a rest,
      u = a +:+ rest /\ agrees_up_to_case a ("github" +:+ ".com") = true.
Proof.
  apply (detected_link_is_https (one_page scenario) (nl +:+ scenario)
           "github" "https://github.com/janedoe").
  - by right.
  - reflexivity.
  - vm_compute. reflexivity.
  - discriminate.
Defined.

(** ** Letter case in header detection *)

Lemma for_all_ascii (p : ascii -> bool) :
  forallb p all_ascii = true -> forall c, p c = true.
Proof. rewrite forallb_forall. intros H c. apply H, in_all_ascii. Qed.

Lemma isword_lower c : Char.isword (Char.lower c) = Char.isword c.
Proof.
  apply Bool.eqb_prop.
  revert c. apply (for_all_ascii (fun c => Bool.eqb _ _)). by vm_compute.
Qed.

Lemma is_lf_lower c : Char.eqb (Char.lower c) Char.LF = Char.eqb c Char.LF.
Proof.
  apply Bool.eqb_prop.
  revert c. apply (for_all_ascii (fun c => Bool.eqb _ _)). by vm_compute.
Qed.

Lemma at_eol_lower s : Re.at_eol (Str.lower s) = Re.at_eol s.
Proof. destruct s as [|c [|d s]]; cbn; [done | apply is_lf_lower | done]. Qed.

Lemma word_at_lower o : Re.word_at (Char.lower <$> o) = Re.word_at o.
Proof. destruct o; [apply isword_lower | done]. Qed.

Lemma peek_lower s : Re.peek (Str.lower s) = Char.lower <$> Re.peek s.
Proof. by destruct s. Qed.

Lemma rep_greedy_lower cls k :
  (forall c, cls (Char.lower c) = cls c) ->
  (forall prev s, k (Char.lower <$> prev) (Str.lower s) = k prev s) ->
  forall s lo hi prev,
    Re.rep_greedy cls k lo hi (Char.lower <$> prev) (Str.lower s) =
    Re.rep_greedy cls k lo hi prev s.
Proof.
  intros Hcls Hk. induction s as [|c s IH]; intros lo hi prev.
  - cbn. destruct lo; [apply (Hk prev "") | done].
  - unfold Str.lower. cbn [Str.map Re.rep_greedy]. fold (Str.lower s).
    rewrite Hcls. rewrite (IH _ _ (Some c)).
    change (String (Char.lower c) (Str.lower s)) with (Str.lower (String c s)).
    by rewrite Hk.
Qed.

(** a pattern whose classes are blind to case matches a text as it matches
    the text in lower case *)
Lemma match_here_lower re :
  case_blind re = true ->
  forall prev s,
    Re.match_here re (Char.lower <$> prev) (Str.lower s) = Re.match_here re prev s.
Proof.
  induction re as [|[cls lo hi| | |] re IH]; cbn [case_blind forallb Re.match_here].
  - done.
  - intros [Hc Hre]%andb_prop prev s.
    apply rep_greedy_lower; [|by apply IH].
    intros c. apply Bool.eqb_prop. revert c. by apply for_all_ascii.
  - intros Hre prev s. destruct prev; [done|]. by apply (IH Hre None).
  - intros Hre prev s. rewrite at_eol_lower. destruct (Re.at_eol s); [by apply IH | done].
  - intros Hre prev s. rewrite peek_lower, !word_at_lower.
    destruct (xorb _ _); [by apply IH | done].
Qed.

Lemma search_from_lower re :
  case_blind re = true ->
  forall s prev,
    is_Some (Re.search_from re (Char.lower <$> prev) (Str.lower s)) <->
    is_Some (Re.search_from re prev s).
Proof.
  intros Hre. induction s as [|c s IH]; intros prev.
  - pose proof (match_here_lower re Hre prev "") as E.
    change (Str.lower "") with "" in *.
    cbn [Re.search_from]. rewrite E.
    destruct (Re.match_here re prev ""); [|done].
    split; intros _; by eexists.
  - pose proof (match_here_lower re Hre prev (String c s)) as E.
    change (Str.lower (String c s))
      with (String (Char.lower c) (Str.lower s)) in *.
    cbn [Re.search_from]. rewrite E.
    destruct (Re.match_here re prev (String c s)).
    + split; intros _; by eexists.
    + apply (IH (Some c)).
Qed.

Lemma found_lower re s :
  case_blind re = true -> Re.found re (Str.lower s) = Re.found re s.
Proof.
  intros Hre. unfold Re.found, Re.search.
  pose proof (search_from_lower re Hre s None) as H. cbn in H.
  destruct (Re.search_from re None (Str.lower s)) as [m|],
           (Re.search_from re None s) as [m'|]; try done.
  - destruct (proj1 H); by eauto.
  - destruct (proj2 H); by eauto.
Qed.

Lemma first_header_lower patterns lines i :
  forallb case_blind patterns = true ->
  first_header patterns (List.map Str.lower lines) i = first_header patterns lines i.
Proof.
  intros Hp. revert i. induction lines as [|ln rest IH]; intros i; [done|].
  cbn [List.map first_header].
  replace (existsb (fun pattern => Re.found pattern (Str.lower ln)) patterns)
    with (existsb (fun pattern => Re.found pattern ln) patterns).
  - by rewrite IH.
  - clear IH. induction patterns as [|p ps IHp]; [done|].
    cbn [forallb existsb] in *. apply andb_prop in Hp as [Hp Hps].
    by rewrite found_lower, IHp.
Qed.

Lemma section_patterns_case_blind :
  forallb (fun entry => forallb case_blind (snd entry)) section_patterns = true.
Proof. by vm_compute. Qed.

(** in the text model, whose characters are the code points below 256,
    the header positions of a document are those of the same document in
    lower case *)
Lemma locate_headers_lower (lines : list string) :
  locate_headers (List.map Str.lower lines) = locate_headers lines.
Proof.
  unfold locate_headers.
  pose proof section_patterns_case_blind as H.
  induction section_patterns as [|[f ps] sps IH]; [done|].
  cbn [forallb snd] in H. apply andb_prop in H as [Hps Hsps].
  cbn [omap list_omap]. rewrite first_header_lower by done.
  destruct (first_header ps lines 0); cbn; rewrite IH; done.
Qed.

(** X4. On lines of ASCII characters header detection is blind to letter
    case: the header positions recorded for such lines are those recorded
    for the same lines in lower case. *)
Theorem header_detection_ignores_case (lines : list string) :
  Forall (fun ln => str_all is_ascii ln = true) lines ->
  locate_headers (List.map Str.lower lines) = locate_headers lines.
Proof. intros _. apply locate_headers_lower. Qed.

Lemma header_detection_ignores_case_witness :
  locate_headers (List.map Str.lower capital_headers) =
  locate_headers capital_headers.
Proof.
  apply (header_detection_ignores_case capital_headers).
  repeat constructor.
Defined.

Example capital_headers_positions :
  locate_headers capital_headers = [("skills", 0); ("experience", 2)].
Proof. vm_compute. reflexivity. Qed.

(** ** Header positions *)

Lemma first_header_first_index patterns lines i :
  first_header patterns lines i =
  (fun k => i + k) <$>
    first_index (fun ln => existsb (fun pattern => Re.found pattern ln) patterns) lines.
Proof.
  revert i. induction lines as [|ln rest IH]; intros i; [done|].
  cbn [first_header first_index].
  destruct (existsb _ patterns); [cbn; f_equal; lia|].
  rewrite IH. destruct (first_index _ rest); cbn; [f_equal; lia | done].
Qed.

Lemma position_of_absent field lines sps :
  field ∉ List.map fst sps ->
  position_of field
    (omap (fun '(f, patterns) =>
             match first_header patterns lines 0 with
             | Some i => Some (f, i)
             | None => None
             end) sps) = None.
Proof.
  intros Hf. apply position_of_omap_none. intros ps Hin.
  destruct Hf. apply list_elem_of_In. by apply (in_map fst _ (field, ps)).
Qed.

(** with distinct keys in the catalog, the position recorded for a field
    is the first header of the patterns entered under that key *)
Lemma position_of_omap field lines sps :
  NoDup (List.map fst sps) ->
  position_of field
    (omap (fun '(f, patterns) =>
             match first_header patterns lines 0 with
             | Some i => Some (f, i)
             | None => None
             end) sps) =
  match List.find (fun entry => Str.eqb (fst entry) field) sps with
  | Some (_, patterns) => first_header patterns lines 0
  | None => None
  end.
Proof.
  induction sps as [|[f ps] sps IH]; [done|].
  cbn [List.map fst]. intros [Hf Hnd]%NoDup_cons.
  cbn [omap list_omap List.find fst].
  destruct (Str.eqb f field) eqn:E.
  - apply eqb_eq in E. subst f.
    destruct (first_header ps lines 0) as [i|].
    + cbn [position_of]. by rewrite eqb_refl.
    + by apply position_of_absent.
  - destruct (first_header ps lines 0) as [i|].
    + cbn [position_of]. rewrite E. by apply IH.
    + by apply IH.
Qed.

Lemma section_patterns_keys : NoDup (List.map fst section_patterns).
Proof. apply (bool_decide_unpack (NoDup (List.map fst section_patterns))). by vm_compute. Qed.

(** X5. The position recorded for a field is the index of the first line
    in which one of the field's header patterns is found, and no position
    is recorded when there is no such line. *)
Theorem header_position_is_first_match (field : string) (lines : list string) :
  position_of field (locate_headers lines) =
  first_index (is_header field) lines.
Proof.
  unfold locate_headers.
  rewrite (position_of_omap field lines section_patterns section_patterns_keys).
  unfold is_header, patterns_of.
  destruct (List.find _ section_patterns) as [[f ps]|].
  - rewrite first_header_first_index.
    by destruct (first_index _ lines).
  - cbn [existsb]. induction lines as [|ln rest IH]; [done|].
    cbn [first_index]. by rewrite <- IH.
Qed.

(** ** Section content *)

Lemma filter_sublist {A} (p : A -> bool) (l : list A) : sublist (List.filter p l) l.
Proof.
  induction l as [|x l IH]; [constructor|]. cbn [List.filter].
  destruct (p x); by constructor.
Qed.

Lemma filter_length_le {A} (p : A -> bool) (l : list A) :
  length (List.filter p l) <= length l.
Proof. apply sublist_length, filter_sublist. Qed.

Lemma filter_Forall {A} (p : A -> bool) (l : list A) :
  Forall (fun x => p x = true) (List.filter p l).
Proof.
  apply Forall_forall. intros x Hx%list_elem_of_In. by apply filter_In in Hx as [_ Hx].
Qed.

(** X6. The content of a section has at most [max_lines] lines, each of
    at least 10 characters and none a page marker; they are lines of the
    document that follow the section's header, in document order, and
    there are none when the field has no header. *)
Theorem section_content_is_bounded
    (lines : list string) (sp : list (string * nat)) (field : string)
    (max_lines : nat) :
  length (get_section_content lines sp field max_lines) <= max_lines /\
  Forall (fun ln => 10 <= Str.len ln /\ Re.matches page_re ln = false)
         (get_section_content lines sp field max_lines) /\
  match position_of field sp with
  | Some h => sublist (get_section_content lines sp field max_lines)
                      (drop (S h) lines)
  | None => get_section_content lines sp field max_lines = []
  end.
Proof.
  unfold get_section_content, section_bounds.
  destruct (position_of field sp) as [h|]; cbn zeta.
  - set (start := h + 1).
    set (end_ := Nat.min _ _).
    assert (Hend : end_ - start <= max_lines) by (unfold end_; lia).
    split; [|split].
    + etrans; [apply filter_length_le|]. unfold py_slice.
      rewrite length_take. lia.
    + eapply Forall_impl; [apply filter_Forall|].
      intros ln [H1 H2]%andb_prop. split.
      * by apply negb_true_iff, Nat.ltb_ge in H1.
      * by apply negb_true_iff in H2.
    + etrans; [apply filter_sublist|]. unfold py_slice, start.
      replace (h + 1) with (S h) by lia. apply sublist_take.
  - split; [cbn; lia|]. split; [constructor | done].
Qed.

(** X7. When another header is recorded at an index beyond the line that
    follows the section's own header, the content of the section is taken
    from the lines strictly between the two headers. *)
Theorem slice_stops_at_later_header
    (lines : list string) (sp : list (string * nat)) (field other : string)
    (h h2 max_lines : nat) :
  position_of field sp = Some h ->
  In (other, h2) sp ->
  h + 1 < h2 ->
  sublist (get_section_content lines sp field max_lines)
          (take (h2 - S h) (drop (S h) lines)).
Proof.
  intros Hpos Hin Hlt.
  unfold get_section_content.
  destruct (section_bounds lines sp field max_lines) as [[start end_]|] eqn:E;
    [|apply sublist_nil_l].
  destruct (section_bounds_stops _ _ _ _ _ _ _ _ _ Hpos Hin Hlt E) as [-> Hle].
  etrans; [apply filter_sublist|]. unfold py_slice.
  replace (h + 1) with (S h) by lia.
  replace (take (end_ - S h) (drop (S h) lines))
    with (take (end_ - S h) (take (h2 - S h) (drop (S h) lines)))
    by (rewrite take_take; f_equal; lia).
  apply sublist_take.
Qed.

Lemma slice_stops_at_later_header_witness :
  sublist (get_section_content two_sections (locate_headers two_sections) "summary" 10)
          (take (3 - 1) (drop 1 two_sections)).
Proof.
  apply (slice_stops_at_later_header two_sections (locate_headers two_sections)
           "summary" "skills" 0 3 10).
  - vm_compute. reflexivity.
  - vm_compute. right. left. reflexivity.
  - lia.
Defined.

(** ** Stripping, continued *)

Lemma lstrip_lstrip s : Str.lstrip (Str.lstrip s) = Str.lstrip s.
Proof.
  induction s as [|c s IH]; [done|]. cbn [Str.lstrip].
  destruct (Char.isspace c) eqn:E; [done|]. cbn [Str.lstrip]. by rewrite E.
Qed.

Lemma rstrip_rstrip s : Str.rstrip (Str.rstrip s) = Str.rstrip s.
Proof.
  induction s as [|c s IH]; [done|]. cbn [Str.rstrip]. cbn zeta.
  destruct (Char.isspace c && negb (Str.truthy (Str.rstrip s))) eqn:E; [done|].
  cbn [Str.rstrip]. cbn zeta. by rewrite IH, E.
Qed.

Lemma rstrip_empty_blank s : Str.truthy (Str.rstrip s) = false -> blank s = true.
Proof.
  induction s as [|c s IH]; [done|]. cbn [Str.rstrip]. cbn zeta.
  destruct (Char.isspace c) eqn:Ec; [|done].
  destruct (Str.truthy (Str.rstrip s)) eqn:Er; [done|].
  intros _. unfold blank in *. cbn [str_all]. by rewrite Ec, IH.
Qed.

Lemma lstrip_rstrip s : Str.lstrip (Str.rstrip s) = Str.rstrip (Str.lstrip s).
Proof.
  induction s as [|c s IH]; [done|]. cbn [Str.rstrip Str.lstrip]. cbn zeta.
  destruct (Char.isspace c) eqn:Ec; cbn [andb].
  - destruct (Str.truthy (Str.rstrip s)) eqn:Er; cbn [negb].
    + cbn [Str.lstrip]. by rewrite Ec.
    + by rewrite (lstrip_blank _ (rstrip_empty_blank _ Er)).
  - cbn [Str.lstrip Str.rstrip]. cbn zeta. by rewrite Ec.
Qed.

(** stripping a stripped text changes nothing *)
Lemma strip_strip s : Str.strip (Str.strip s) = Str.strip s.
Proof.
  unfold Str.strip.
  by rewrite lstrip_rstrip, lstrip_lstrip, rstrip_rstrip.
Qed.

Lemma str_all_lstrip p s : str_all p s = true -> str_all p (Str.lstrip s) = true.
Proof.
  induction s as [|c s IH]; [done|]. cbn [Str.lstrip].
  destruct (Char.isspace c); [|done]. cbn [str_all].
  intros [_ H]%andb_prop. by apply IH.
Qed.

Lemma str_all_rstrip p s : str_all p s = true -> str_all p (Str.rstrip s) = true.
Proof.
  induction s as [|c s IH]; [done|]. cbn [Str.rstrip str_all]. cbn zeta.
  intros [Hc Hs]%andb_prop.
  destruct (_ && _); [done|]. cbn [str_all]. by rewrite Hc, IH.
Qed.

Lemma str_all_strip p s : str_all p s = true -> str_all p (Str.strip s) = true.
Proof. intros H. by apply str_all_rstrip, str_all_lstrip. Qed.

(** ** Skills *)

Lemma split_on_pieces p s :
  Forall (fun w => str_all (fun c => negb (p c)) w = true) (Str.split_on p s).
Proof.
  induction s as [|c s IH]; [by repeat constructor|]. cbn [Str.split_on].
  destruct (p c) eqn:E; [by constructor|].
  destruct (Str.split_on p s) as [|w ws].
  - repeat constructor. cbn. by rewrite E.
  - apply Forall_cons in IH as [Hw Hws]. constructor; [|done].
    cbn [str_all]. by rewrite E, Hw.
Qed.

Lemma skill_tokens_ok skills_text : Forall token_ok (skill_tokens skills_text).
Proof.
  unfold skill_tokens. apply Forall_forall. intros tk Hin%list_elem_of_In.
  apply in_map_iff in Hin as (w & <- & Hw).
  apply filter_In in Hw as [Hw Hlen].
  apply andb_prop in Hlen as [H2 H80]. apply Nat.ltb_lt in H2, H80.
  split; [lia|]. split; [|apply strip_strip].
  apply str_all_strip.
  pose proof (split_on_pieces skill_separator skills_text) as Hp.
  rewrite Forall_forall in Hp. apply Hp. by apply list_elem_of_In.
Qed.

(** X8. The skills field is the [", "]-join, capped at 500 characters, of
    at most 30 tokens; every token has 3 to 79 characters, none of them a
    separator (comma, bar, slash, newline), and no whitespace around it. *)
Theorem skills_field_is_a_token_list (pdf : pdf_file) :
  exists tokens,
    length tokens <= 30 /\
    Forall token_ok tokens /\
    extract_resume_from_pdf pdf !! "skills" =
      Some (Str.take 500 (Str.join ", " tokens)).
Proof.
  revert pdf.
  apply (extract_cases (fun r => exists tokens,
           length tokens <= 30 /\ Forall token_ok tokens /\
           r !! "skills" = Some (Str.take 500 (Str.join ", " tokens)))).
  { exists []. split; [cbn; lia|]. split; [constructor | reflexivity]. }
  apply (fields_of_cases (fun r => exists tokens,
           length tokens <= 30 /\ Forall token_ok tokens /\
           r !! "skills" = Some (Str.take 500 (Str.join ", " tokens)))).
  { exists []. split; [cbn; lia|]. split; [constructor | reflexivity]. }
  intros t lines. unfold assembled. cbn zeta. through_set_opt.
  rewrite lookup_set_opt_eq. unfold skills_of. cbn zeta.
  destruct (nonempty _).
  - eexists. split; [|split; [|reflexivity]].
    + rewrite length_take. lia.
    + apply Forall_take, skill_tokens_ok.
  - through_set_opt. exists [].
    split; [cbn; lia|]. split; [constructor | reflexivity].
Qed.

(** ** Education *)

Lemma no_header field lines :
  Forall (fun ln => is_header field ln = false) lines ->
  position_of field (locate_headers lines) = None.
Proof.
  intros H. unfold locate_headers.
  rewrite (position_of_omap field lines section_patterns section_patterns_keys).
  unfold is_header, patterns_of in H.
  destruct (List.find _ section_patterns) as [[f ps]|]; [|done].
  by apply first_header_none.
Qed.

(** X9. When no education header pattern is found in any line, the
    education field is the newline-join, capped at 1000 characters, of all
    the lines that hold a degree word, in document order. *)
Theorem education_fallback_collects_degree_lines
    (pdf : pdf_file) (all_text : string) :
  acquire pdf = Ok all_text ->
  Forall (fun ln => is_header "education" ln = false) (lines_of all_text) ->
  extract_resume_from_pdf pdf !! "education" =
    Some (Str.take 1000
            (Str.join nl (List.filter degree_line (lines_of all_text)))).
Proof.
  intros Hacq Hno. rewrite (extract_acquired _ _ Hacq).
  destruct (lines_of all_text) as [|l ls] eqn:E.
  - unfold fields_of. cbn zeta. fold (lines_of all_text). rewrite E.
    by destruct (negb _).
  - rewrite fields_of_lines by (by rewrite E). rewrite E.
    unfold assembled. cbn zeta. through_set_opt. rewrite lookup_set_opt_eq.
    unfold education_of, get_section_content, section_bounds. cbn zeta.
    rewrite (no_header _ _ Hno). cbn [nonempty negb].
    fold degree_line.
    destruct (List.filter degree_line (l :: ls)) as [|x xs] eqn:Ef.
    + cbn [nonempty]. through_set_opt. reflexivity.
    + done.
Qed.

Lemma education_fallback_collects_degree_lines_witness :
  extract_resume_from_pdf (one_page degrees_resume) !! "education" =
    Some (Str.take 1000
            (Str.join nl (List.filter degree_line (lines_of (nl +:+ degrees_resume))))).
Proof.
  apply (education_fallback_collects_degree_lines (one_page degrees_resume)
           (nl +:+ degrees_resume)).
  - reflexivity.
  - apply Forall_false_of_existsb. vm_compute. reflexivity.
Defined.

Example degrees_resume_education :
  extract_resume_from_pdf (one_page degrees_resume) !! "education" =
  Some ("Bachelor of Science, Pune University" +:+ nl +:+
        "Master of Science, IIT Delhi").
Proof. vm_compute. reflexivity. Qed.

(** ** Title repair *)

Lemma fix_titles_loop_length i titles count :
  length (fix_titles_loop i titles count).1 = length titles.
Proof.
  revert i count. induction titles as [|t rest IH]; intros i count; [done|].
  cbn [fix_titles_loop]. destruct (opt_eqb t "My Resume").
  - specialize (IH (S i) (count + 1)).
    destruct (fix_titles_loop (S i) rest (count + 1)). cbn in *. by rewrite IH.
  - specialize (IH (S i) count).
    destruct (fix_titles_loop (S i) rest count). cbn in *. by rewrite IH.
Qed.

Lemma fix_titles_loop_count i titles count :
  (fix_titles_loop i titles count).2 =
  count + length (List.filter (fun t => opt_eqb t "My Resume") titles).
Proof.
  revert i count. induction titles as [|t rest IH]; intros i count; [cbn; lia|].
  cbn [fix_titles_loop List.filter]. destruct (opt_eqb t "My Resume").
  - specialize (IH (S i) (count + 1)).
    destruct (fix_titles_loop (S i) rest (count + 1)). cbn in *. lia.
  - specialize (IH (S i) count).
    destruct (fix_titles_loop (S i) rest count). cbn in *. lia.
Qed.

Lemma fix_titles_loop_lookup i titles count k t :
  titles !! k = Some t ->
  (fix_titles_loop i titles count).1 !! k =
  Some (if opt_eqb t "My Resume"
        then Some ("My Resume #" +:+ pretty (i + k)) else t).
Proof.
  revert i count k. induction titles as [|x rest IH]; intros i count k; [done|].
  cbn [fix_titles_loop]. destruct k as [|k].
  - intros [= ->]. replace (i + 0) with i by lia.
    destruct (opt_eqb t "My Resume");
      by destruct (fix_titles_loop (S i) rest _).
  - intros Hk. cbn in Hk. replace (i + S k) with (S i + k) by lia.
    destruct (opt_eqb x "My Resume").
    + specialize (IH (S i) (count + 1) k Hk).
      by destruct (fix_titles_loop (S i) rest (count + 1)).
    + specialize (IH (S i) count k Hk).
      by destruct (fix_titles_loop (S i) rest count).
Qed.

Lemma renamed_is_not_my_resume (n : nat) :
  opt_eqb (Some ("My Resume #" +:+ pretty n)) "My Resume" = false.
Proof. reflexivity. Qed.

(** X10. [fix_titles] keeps the number and order of the resumes, renames
    the resume at 1-based position [k + 1] to ["My Resume #<k+1>"] exactly
    when its title is ["My Resume"], leaves every other title as it is, and
    reports the number of resumes it renamed; afterwards no title is
    ["My Resume"]. *)
Theorem fix_titles_renames_my_resume (titles : list (option string)) :
  length (fix_titles titles).1 = length titles /\
  (fix_titles titles).2 =
    length (List.filter (fun t => opt_eqb t "My Resume") titles) /\
  (forall k t, titles !! k = Some t ->
     (fix_titles titles).1 !! k =
     Some (if opt_eqb t "My Resume"
           then Some ("My Resume #" +:+ pretty (S k)) else t)) /\
  Forall (fun t => opt_eqb t "My Resume" = false) (fix_titles titles).1.
Proof.
  unfold fix_titles.
  assert (Hlook : forall k t, titles !! k = Some t ->
     (fix_titles_loop 1 titles 0).1 !! k =
     Some (if opt_eqb t "My Resume"
           then Some ("My Resume #" +:+ pretty (S k)) else t)).
  { intros k t Hk. by rewrite (fix_titles_loop_lookup 1 titles 0 k t Hk). }
  split; [apply fix_titles_loop_length|].
  split; [by rewrite fix_titles_loop_count|].
  split; [done|].
  apply Forall_lookup. intros k t' Hk'.
  assert (Hlt : k < length titles).
  { rewrite <- (fix_titles_loop_length 1 titles 0). by eapply lookup_lt_Some. }
  destruct (lookup_lt_is_Some_2 _ _ Hlt) as [t Ht].
  rewrite (Hlook _ _ Ht) in Hk'. injection Hk' as <-.
  destruct (opt_eqb t "My Resume") eqn:E; [apply renamed_is_not_my_resume | done].
Qed.

Lemma fix_titles_loop_fixed i titles count :
  Forall (fun t => opt_eqb t "My Resume" = false) titles ->
  fix_titles_loop i titles count = (titles, count).
Proof.
  intros H. revert i count. induction H as [|t rest Ht _ IH]; intros i count; [done|].
  cbn [fix_titles_loop]. by rewrite Ht, IH.
Qed.

Lemma fix_titles_loop_clean i titles count :
  Forall (fun t => opt_eqb t "My Resume" = false)
         (fix_titles_loop i titles count).1.
Proof.
  revert i count. induction titles as [|t rest IH]; intros i count; [constructor|].
  cbn [fix_titles_loop]. destruct (opt_eqb t "My Resume") eqn:E.
  - specialize (IH (S i) (count + 1)).
    destruct (fix_titles_loop (S i) rest (count + 1)). by constructor.
  - specialize (IH (S i) count).
    destruct (fix_titles_loop (S i) rest count). by constructor.
Qed.

(** X11. Running [fix_titles] a second time changes no title and reports
    a count of 0. *)
Theorem fix_titles_twice (titles : list (option string)) :
  fix_titles (fix_titles titles).1 = ((fix_titles titles).1, 0).
Proof.
  unfold fix_titles at 1. apply fix_titles_loop_fixed.
  apply fix_titles_loop_clean.
Qed.

Lemma app_inv_head_str a b c : a +:+ b = a +:+ c -> b = c.
Proof.
  induction a as [|x a IH]; [done|]. rewrite !app_cons. intros [= H]. auto.
Qed.

(** X12. Two resumes that [fix_titles] renames get different titles. *)
Theorem fix_titles_new_titles_differ
    (titles : list (option string)) (j k : nat) :
  j <> k ->
  titles !! j = Some (Some "My Resume") ->
  titles !! k = Some (Some "My Resume") ->
  (fix_titles titles).1 !! j <> (fix_titles titles).1 !! k.
Proof.
  intros Hjk Hj Hk. unfold fix_titles.
  rewrite (fix_titles_loop_lookup 1 titles 0 j _ Hj).
  rewrite (fix_titles_loop_lookup 1 titles 0 k _ Hk).
  cbn [opt_eqb]. rewrite eqb_refl.
  intros [= H%app_inv_head_str]. apply (inj pretty) in H. lia.
Qed.

Lemma fix_titles_new_titles_differ_witness :
  (fix_titles [Some "My Resume"; Some "Intern"; Some "My Resume"]).1 !! 0 <>
  (fix_titles [Some "My Resume"; Some "Intern"; Some "My Resume"]).1 !! 2.
Proof.
  apply (fix_titles_new_titles_differ
           [Some "My Resume"; Some "Intern"; Some "My Resume"] 0 2).
  - lia.
  - reflexivity.
  - reflexivity.
Defined.

(** a title set by hand can collide with a title the repair hands out *)
Example fix_titles_can_collide :
  (fix_titles [Some "My Resume #2"; Some "My Resume"]).1 =
  [Some "My Resume #2"; Some "My Resume #2"].
Proof. vm_compute. reflexivity. Qed.

(** ** Saving a resume *)

Lemma join_cons_char sep c w ws :
  Str.join sep (String c w :: ws) = String c (Str.join sep (w :: ws)).
Proof. by destruct ws. Qed.

Lemma split_on_nonempty p s : Str.split_on p s <> [].
Proof.
  destruct s as [|c s]; [done|]. cbn [Str.split_on].
  destruct (p c); [done|]. by destruct (Str.split_on p s).
Qed.

Lemma join_empty_head sep w ws :
  Str.join sep ("" :: w :: ws) = sep +:+ Str.join sep (w :: ws).
Proof. reflexivity. Qed.

(** joining the pieces cut at the periods with [". "] adds one character
    for each period *)
Lemma len_join_split s :
  Str.len (Str.join ". " (Str.split_on (Char.eqb ".") s)) =
  Str.len s + Str.count is_dot s.
Proof.
  induction s as [|c s IH]; [done|]. cbn [Str.split_on Str.count].
  fold (is_dot c). pose proof (split_on_nonempty (Char.eqb ".") s) as Hne.
  destruct (Str.split_on (Char.eqb ".") s) as [|w ws]; [done|].
  destruct (is_dot c).
  - rewrite join_empty_head, len_app, IH. unfold Str.len. cbn [String.length]. lia.
  - rewrite join_cons_char. unfold Str.len in *. cbn [String.length]. rewrite IH. lia.
Qed.

Lemma count_join_split s :
  Str.count is_dot (Str.join ". " (Str.split_on (Char.eqb ".") s)) =
  Str.count is_dot s.
Proof.
  induction s as [|c s IH]; [done|]. cbn [Str.split_on Str.count].
  fold (is_dot c). pose proof (split_on_nonempty (Char.eqb ".") s) as Hne.
  destruct (Str.split_on (Char.eqb ".") s) as [|w ws]; [done|].
  destruct (is_dot c) eqn:E.
  - rewrite join_empty_head, count_app, IH. reflexivity.
  - rewrite join_cons_char. cbn [Str.count]. by rewrite E, IH.
Qed.

Lemma len_dot_join s : Str.len (dot_join s) = Str.len s + Str.count is_dot s.
Proof. destruct s as [|c s]; [done|]. apply len_join_split. Qed.

Lemma count_dot_join s : Str.count is_dot (dot_join s) = Str.count is_dot s.
Proof. destruct s as [|c s]; [done|]. apply count_join_split. Qed.

Lemma dot_join_truthy s : Str.truthy s = true -> Str.truthy (dot_join s) = true.
Proof.
  intros H. apply truthy_len. rewrite len_dot_join. apply truthy_len in H. lia.
Qed.

Lemma or_str_empty v : or_str (Some v) "" = v.
Proof. by destruct v. Qed.

Lemma py_or_truthy a b :
  opt_truthy b = true -> opt_truthy (py_or a b) = true.
Proof. unfold py_or. by destruct (opt_truthy a) eqn:E. Qed.

Lemma or_str_truthy a s :
  opt_truthy a = true -> Str.truthy (or_str a s) = true.
Proof. destruct a as [v|]; [|done]. cbn. intros H. by rewrite H. Qed.

Section RouteProperties.

Variable normalize_date : string -> string.
Variable normalize_skills : string -> string.
Variable normalize_softskills : string -> string.
Variable normalize_languages_spoken : string -> string.
Variable normalize_block_section : string -> string.

Let post := edit_resume_post normalize_date normalize_skills
              normalize_softskills normalize_languages_spoken
              normalize_block_section.

(** X13. After a save the title is a non-empty string: the posted title,
    else the stored one, else ["My Resume"] when both are missing or
    empty. *)
Theorem saved_title_is_never_empty
    (form : gmap string string) (upload : option string) (resume : Resume.t) :
  exists v,
    Resume.title (post form upload resume) = Some v /\
    Str.truthy v = true /\
    (if opt_truthy (form !! "title") then form !! "title" = Some v
     else if opt_truthy (Resume.title resume) then Resume.title resume = Some v
          else v = "My Resume").
Proof.
  eexists. split; [reflexivity|]. unfold py_or.
  destruct (form !! "title") as [a|] eqn:Ea; cbn [opt_truthy].
  - destruct (Str.truthy a) eqn:Ta.
    + cbn [or_str]. by rewrite Ta.
    + destruct (Resume.title resume) as [b|]; cbn [or_str opt_truthy]; [|done].
      by destruct (Str.truthy b) eqn:Tb.
  - destruct (Resume.title resume) as [b|]; cbn [or_str opt_truthy]; [|done].
    by destruct (Str.truthy b) eqn:Tb.
Qed.

(** X14. No posted form empties a column that holds text, among title,
    fullname, email, phone, location, the three links, summary and
    career objective.  Fullname, email, phone, location and the three
    links keep exactly the stored value when the form value is empty or
    missing, and so does a title that is not empty. *)
Theorem save_never_empties_a_column
    (form : gmap string string) (upload : option string) (resume : Resume.t) :
  Forall (fun column =>
            opt_truthy (column resume) = true ->
            opt_truthy (column (post form upload resume)) = true)
         kept_columns /\
  Forall (fun entry =>
            opt_truthy (form !! entry.1) = false ->
            entry.2 (post form upload resume) = entry.2 resume)
         plain_columns /\
  (opt_truthy (form !! "title") = false ->
   opt_truthy (Resume.title resume) = true ->
   Resume.title (post form upload resume) = Resume.title resume).
Proof.
  split; [|split].
  2: { unfold plain_columns. repeat constructor;
         cbn [fst snd post edit_resume_post Resume.fullname Resume.email
              Resume.phone Resume.location Resume.linkedin Resume.github
              Resume.website];
         intros Hf; unfold py_or; by rewrite Hf. }
  2: { cbn [post edit_resume_post Resume.title]. intros Hf Ht.
       unfold py_or. rewrite Hf.
       destruct (Resume.title resume) as [v|]; [|done].
       cbn in Ht. cbn [or_str]. by rewrite Ht. }
  unfold kept_columns. repeat constructor; cbn [post edit_resume_post Resume.title
    Resume.fullname Resume.email Resume.phone Resume.location Resume.linkedin
    Resume.github Resume.website Resume.summary Resume.career_objective opt_truthy];
    intros H; try (by apply py_or_truthy).
  - by apply or_str_truthy, py_or_truthy.
  - by apply dot_join_truthy, or_str_truthy, py_or_truthy.
  - by apply dot_join_truthy, or_str_truthy, py_or_truthy.
Qed.

Lemma summary_after_save form upload resume s :
  opt_truthy (form !! "summary") = false ->
  Resume.summary resume = Some s ->
  Resume.summary (post form upload resume) = Some (dot_join s).
Proof.
  intros Hf Hs. cbn [post edit_resume_post Resume.summary].
  unfold py_or. by rewrite Hf, Hs, or_str_empty.
Qed.

(** X15. Every save made without a summary in the form adds one space
    after every period of the stored summary: after [n] such saves the
    summary is longer by [n] times the number of its periods. *)
Theorem resaving_grows_the_summary
    (form : gmap string string) (upload : option string) (resume : Resume.t)
    (s : string) (n : nat) :
  opt_truthy (form !! "summary") = false ->
  Resume.summary resume = Some s ->
  exists s',
    Resume.summary (Nat.iter n (post form upload) resume) = Some s' /\
    Str.count is_dot s' = Str.count is_dot s /\
    Str.len s' = Str.len s + n * Str.count is_dot s.
Proof.
  intros Hf Hs. induction n as [|n (s' & Hs' & Hc & Hl)].
  - exists s. cbn. split; [done|]. split; [done | lia].
  - exists (dot_join s'). cbn [Nat.iter nat_rect].
    split; [by apply summary_after_save|].
    rewrite count_dot_join, len_dot_join, Hc, Hl. split; [done | lia].
Qed.

End RouteProperties.

Lemma resaving_grows_the_summary_witness :
  exists s',
    Resume.summary
      (Nat.iter 3 (edit_resume_post id id id id id ∅ None) two_sentences) = Some s' /\
    Str.count is_dot s' = Str.count is_dot "Built APIs. Led a team." /\
    Str.len s' = Str.len "Built APIs. Led a team." +
                 3 * Str.count is_dot "Built APIs. Led a team.".
Proof.
  apply (resaving_grows_the_summary id id id id id ∅ None two_sentences
           "Built APIs. Led a team." 3); reflexivity.
Defined.

Example resaved_three_times :
  Resume.summary
    (Nat.iter 3 (edit_resume_post id id id id id ∅ None) two_sentences) =
  Some "Built APIs.    Led a team.   ".
Proof. vm_compute. reflexivity. Qed.

(** ** The input of the ATS score *)

Lemma lstrip_no_space s : str_all no_space s = true -> Str.lstrip s = s.
Proof.
  destruct s as [|c s]; [done|]. cbn [str_all Str.lstrip].
  intros [Hc _]%andb_prop. apply negb_true_iff in Hc. by rewrite Hc.
Qed.

Lemma rstrip_no_space s : str_all no_space s = true -> Str.rstrip s = s.
Proof.
  induction s as [|c s IH]; [done|]. cbn [str_all Str.rstrip]. cbn zeta.
  intros [Hc Hs]%andb_prop. apply negb_true_iff in Hc. by rewrite Hc, IH.
Qed.

Lemma strip_no_space s : str_all no_space s = true -> Str.strip s = s.
Proof.
  intros H. unfold Str.strip. by rewrite lstrip_no_space, rstrip_no_space.
Qed.

Lemma truthy_app_r a b : Str.truthy b = true -> Str.truthy (a +:+ b) = true.
Proof. by destruct a. Qed.

(** text that ends in a word has no whitespace to strip on the right *)
Lemma rstrip_app a d :
  Str.truthy d = true -> str_all no_space d = true ->
  Str.rstrip (a +:+ d) = a +:+ d.
Proof.
  intros Ht Hd. induction a as [|c a IH]; [by apply rstrip_no_space|].
  rewrite app_cons. cbn [Str.rstrip]. cbn zeta.
  by rewrite IH, (truthy_app_r a d Ht), andb_false_r.
Qed.

Lemma normalize_lines_stripped all_text :
  Forall (fun ln => Str.strip ln = ln) (normalize_lines all_text).
Proof.
  unfold normalize_lines. apply Forall_forall. intros ln Hin%list_elem_of_In.
  apply in_map_iff in Hin as (raw & <- & _). apply strip_strip.
Qed.

Lemma in_take {A} (x : A) n l : In x (take n l) -> In x l.
Proof.
  revert l. induction n as [|n IH]; intros [|y l]; cbn; try done.
  intros [->|H]; [by left | right; auto].
Qed.

Lemma find_stripped p n lines ln :
  Forall (fun ln => Str.strip ln = ln) lines ->
  List.find p (take n lines) = Some ln -> Str.strip ln = ln.
Proof.
  intros Hall Hf. apply find_some in Hf as [Hin _]. apply in_take in Hin.
  rewrite Forall_forall in Hall. by apply Hall, list_elem_of_In.
Qed.

Lemma find_stripped_all p lines ln :
  Forall (fun ln => Str.strip ln = ln) lines ->
  List.find p lines = Some ln -> Str.strip ln = ln.
Proof.
  intros Hall Hf. apply find_some in Hf as [Hin _].
  rewrite Forall_forall in Hall. by apply Hall, list_elem_of_In.
Qed.

Lemma phone_stripped p v :
  In p phone_patterns -> shaped p v -> Str.strip v = v.
Proof.
  unfold phone_patterns. cbn [In]. intros [<-|[<-|[<-|[]]]] Hsh.
  - apply shaped_lit in Hsh as (b & -> & Hsh).
    cbn [Re.opt Re.exactly app shaped] in Hsh.
    destruct Hsh as (sep & b' & -> & _ & _ & _ & digits & e & -> & Hd & Hlo & _ & ->).
    rewrite app_nil_r. unfold Str.strip.
    change (Str.lstrip ("+91" +:+ sep +:+ digits)) with ("+91" +:+ sep +:+ digits).
    rewrite <- app_assoc. apply rstrip_app.
    + apply truthy_len. lia.
    + eapply str_all_sub; [|exact Hd]. by vm_compute.
  - apply strip_no_space. eapply shaped_within; [|exact Hsh]. by vm_compute.
  - apply strip_no_space. eapply shaped_within; [|exact Hsh]. by vm_compute.
Qed.

Lemma fields_of_normalized (P : dict -> Prop) :
  P get_default_16_fields ->
  (forall t, P (assembled t (normalize_lines t) get_default_16_fields)) ->
  forall all_text, P (fields_of all_text).
Proof.
  intros Hd Ha t. unfold fields_of. cbn zeta.
  destruct (negb _); [done|]. destruct (negb _); [done|]. apply Ha.
Qed.

(** the contact values the extractor returns have no whitespace around
    them *)
Lemma contact_values_stripped pdf :
  Forall (fun key => exists v, extract_resume_from_pdf pdf !! key = Some v /\
                               Str.strip v = v) contact_keys.
Proof.
  revert pdf.
  apply (extract_cases (fun r => Forall (fun key => exists v,
           r !! key = Some v /\ Str.strip v = v) contact_keys)).
  { repeat constructor; by eexists. }
  apply (fields_of_normalized (fun r => Forall (fun key => exists v,
           r !! key = Some v /\ Str.strip v = v) contact_keys)).
  { repeat constructor; by eexists. }
  intros t. pose proof (normalize_lines_stripped t) as Hl.
  unfold contact_keys, assembled. cbn zeta. repeat constructor.
  - through_set_opt. rewrite lookup_set_opt_eq.
    destruct (List.find is_name _) as [ln|] eqn:E.
    + exists ln. split; [done|]. by eapply find_stripped.
    + by eexists.
  - through_set_opt. rewrite lookup_set_opt_eq.
    destruct (Re.search email_re t) as [m|] eqn:E.
    + exists m. split; [done|]. apply strip_no_space.
      destruct (search_occurs _ _ _ E) as [_ Hsh].
      eapply shaped_within; [|exact Hsh]. by vm_compute.
    + through_set_opt. by eexists.
  - through_set_opt. rewrite lookup_set_opt_eq. unfold phone_of. cbn zeta.
    destruct (Str.truthy (phone_loop phone_patterns t)) eqn:E.
    + eexists. split; [done|].
      destruct (phone_loop_found _ _ E) as (p & Hp & Hs).
      destruct (search_occurs _ _ _ Hs) as [_ Hsh]. by eapply phone_stripped.
    + through_set_opt. by eexists.
  - through_set_opt. rewrite lookup_set_opt_eq. unfold location_of.
    destruct (List.find city_line _) as [ln|] eqn:E.
    + exists ln. split; [done|]. by eapply find_stripped_all.
    + destruct (List.find comma_line _) as [ln|] eqn:E'.
      * exists ln. split; [done|]. by eapply find_stripped.
      * through_set_opt. by eexists.
Qed.

Lemma ats_parsed_contact ns nl nb (extracted : dict) key v :
  key ∈ contact_keys ->
  extracted !! key = Some v ->
  ats_parsed ns nl nb extracted !! key = Some (VStr (Str.strip v)).
Proof.
  unfold contact_keys. intros Hk Hv.
  repeat (apply elem_of_cons in Hk as [->|Hk]); [..|by apply elem_of_nil in Hk];
    unfold ats_parsed; cbn zeta;
    repeat (rewrite lookup_insert_ne by discriminate);
    by rewrite lookup_insert_eq, Hv, or_str_empty.
Qed.

(** X16. The name, email, phone and location that [ats_score] hands to
    the scorer are exactly the values the extractor returned: stripping
    them changes nothing. *)
Theorem ats_score_keeps_contact_values
    (normalize_skills normalize_languages_spoken normalize_block_section
       : string -> string)
    (pdf : pdf_file) :
  Forall (fun key =>
            ats_parsed normalize_skills normalize_languages_spoken
              normalize_block_section (extract_resume_from_pdf pdf) !! key =
            VStr <$> (extract_resume_from_pdf pdf !! key))
         contact_keys.
Proof.
  pose proof (contact_values_stripped pdf) as H.
  rewrite Forall_forall in H. apply Forall_forall. intros key Hk.
  destruct (H key Hk) as (v & Hv & Hs).
  rewrite (ats_parsed_contact _ _ _ _ key v Hk Hv), Hv, Hs. done.
Qed.

(** *** the summary as words *)

Lemma split_scan_word w s :
  str_all no_space w = true ->
  Str.split_scan (w +:+ s) = ((w +:+ (Str.split_scan s).1), (Str.split_scan s).2).
Proof.
  intros Hw. induction w as [|c w IH].
  { change ("" +:+ s) with s. by destruct (Str.split_scan s). }
  cbn [str_all] in Hw. apply andb_prop in Hw as [Hc Hw].
  apply negb_true_iff in Hc.
  rewrite app_cons. cbn [Str.split_scan]. rewrite (IH Hw), Hc. done.
Qed.

Lemma split_scan_words s :
  str_all no_space (Str.split_scan s).1 = true /\
  Forall is_word (Str.split_scan s).2.
Proof.
  induction s as [|c s [Hw Hws]]; [by split; [|constructor]|].
  cbn [Str.split_scan]. destruct (Str.split_scan s) as [w ws]. cbn [fst snd] in *.
  destruct (Char.isspace c) eqn:E; cbn [fst snd].
  - split; [done|]. unfold Str.cons_word.
    destruct (Str.truthy w) eqn:Tw; [by constructor | done].
  - split; [|done]. cbn [str_all]. unfold no_space at 1. by rewrite E, Hw.
Qed.

(** [split()] gives words *)
Lemma split_words s : Forall is_word (Str.split s).
Proof.
  unfold Str.split. destruct (split_scan_words s) as [Hw Hws].
  destruct (Str.split_scan s) as [w ws]. cbn [fst snd] in *.
  unfold Str.cons_word. destruct (Str.truthy w) eqn:Tw; [by constructor | done].
Qed.

(** splitting the join of words by single spaces gives the words back *)
Lemma split_join ws : Forall is_word ws -> Str.split (Str.join " " ws) = ws.
Proof.
  induction 1 as [|w ws [Tw Hw] Hws IH]; [done|].
  destruct ws as [|w' ws].
  - cbn [Str.join]. unfold Str.split.
    rewrite <- (app_nil_r w) at 1. rewrite (split_scan_word w "" Hw).
    cbn. rewrite app_nil_r. unfold Str.cons_word. by rewrite Tw.
  - change (Str.join " " (w :: w' :: ws))
      with (w +:+ String " " (Str.join " " (w' :: ws))).
    unfold Str.split in *. rewrite (split_scan_word w _ Hw).
    cbn [Str.split_scan].
    destruct (Str.split_scan (Str.join " " (w' :: ws))) as [x xs].
    change (Char.isspace " ") with true. cbn [fst snd].
    rewrite app_nil_r, IH. unfold Str.cons_word. by rewrite Tw.
Qed.

(** X17. The summary that [ats_score] hands to the scorer is a list of
    words joined by single spaces; cleaning it again the same way gives
    the same text. *)
Theorem ats_score_summary_is_words
    (normalize_skills normalize_languages_spoken normalize_block_section
       : string -> string)
    (extracted : dict) :
  exists words,
    Forall is_word words /\
    ats_parsed normalize_skills normalize_languages_spoken
      normalize_block_section extracted !! "summary" =
      Some (VStr (Str.join " " words)) /\
    Str.join " " (Str.split (Str.join " " words)) = Str.join " " words.
Proof.
  exists (Str.split (or_str (extracted !! "summary") "")).
  split; [apply split_words|]. split.
  - unfold ats_parsed. cbn zeta.
    repeat (rewrite lookup_insert_ne by discriminate). by rewrite lookup_insert_eq.
  - by rewrite split_join by apply split_words.
Qed.

(** ** Pages without text *)

Lemma read_pages_skip pre blank post all_text :
  Str.truthy (default "" blank) = false ->
  read_pages (pre ++ Ok blank :: post) all_text = read_pages (pre ++ post) all_text.
Proof.
  intros Hb. revert all_text. induction pre as [|[t|e] pre IH]; intros all_text.
  - cbn [app read_pages]. cbn zeta. by rewrite Hb.
  - cbn [app read_pages]. cbn zeta. apply IH.
  - done.
Qed.

Lemma extract_skip pre blank post close :
  Str.truthy (default "" blank) = false ->
  extract_resume_from_pdf
    {| pdf_pages := Ok (pre ++ Ok blank :: post); pdf_close := close |} =
  extract_resume_from_pdf
    {| pdf_pages := Ok (pre ++ post); pdf_close := close |}.
Proof.
  intros Hb. unfold extract_resume_from_pdf, try_body, bind, lift, acquire.
  cbn [pdf_pages pdf_close]. by rewrite (read_pages_skip _ _ _ _ Hb).
Qed.

(** X18. A page without text does not change the result: a page whose
    [extract_text()] gives [None] or the empty string can be taken out of
    the file, wherever it stands. *)
Theorem pages_without_text_do_not_matter
    (pre post : list (outcome (option string))) (close : outcome unit) :
  extract_resume_from_pdf
    {| pdf_pages := Ok (pre ++ Ok None :: post); pdf_close := close |} =
  extract_resume_from_pdf
    {| pdf_pages := Ok (pre ++ post); pdf_close := close |} /\
  extract_resume_from_pdf
    {| pdf_pages := Ok (pre ++ Ok (Some "") :: post); pdf_close := close |} =
  extract_resume_from_pdf
    {| pdf_pages := Ok (pre ++ post); pdf_close := close |}.
Proof. split; by apply extract_skip. Qed.

(** ** Name, location and title *)

Lemma fields_of_no_lines all_text :
  lines_of all_text = [] -> fields_of all_text = get_default_16_fields.
Proof.
  intros E. unfold fields_of. cbn zeta. fold (lines_of all_text). rewrite E.
  by destruct (negb _).
Qed.

Lemma is_name_plain ln :
  is_name ln = true -> Str.contains "@" ln = false /\ Str.len ln < 50.
Proof.
  unfold is_name. intros H.
  apply andb_prop in H as [H _]. apply andb_prop in H as [Hat H].
  apply andb_prop in H as [_ H50]. apply Nat.ltb_lt in H50. split; [|done].
  apply negb_true_iff in Hat. apply orb_false_elim in Hat as [Hat _].
  by apply orb_false_elim in Hat as [Hat _].
Qed.

(** X19. The name, the location and the title come from the document:
    the name is the placeholder or one of the first 15 lines, without [@]
    and shorter than 50 characters; the location is empty or a line; the
    title is empty or one of the first 25 lines, shorter than 100
    characters. *)
Theorem header_fields_are_lines (pdf : pdf_file) (all_text : string) :
  acquire pdf = Ok all_text ->
  exists name loc title,
    extract_resume_from_pdf pdf !! "fullname" = Some name /\
    extract_resume_from_pdf pdf !! "location" = Some loc /\
    extract_resume_from_pdf pdf !! "title" = Some title /\
    (name = name_placeholder \/
     In name (take 15 (lines_of all_text)) /\
     Str.contains "@" name = false /\ Str.len name < 50) /\
    (loc = "" \/ In loc (lines_of all_text)) /\
    (title = "" \/
     In title (take 25 (lines_of all_text)) /\ Str.len title < 100).
Proof.
  intros Hacq. rewrite (extract_acquired _ _ Hacq).
  destruct (lines_of all_text) as [|l ls] eqn:E.
  { rewrite (fields_of_no_lines _ E).
    exists name_placeholder, "", "". repeat split; auto. }
  rewrite fields_of_lines by (by rewrite E). rewrite E.
  set (lines := l :: ls). unfold assembled. cbn zeta.
  assert (Hname : exists name,
    set_opt "fullname" (List.find is_name (take 15 lines)) get_default_16_fields
      !! "fullname" = Some name /\
    (name = name_placeholder \/
     In name (take 15 lines) /\ Str.contains "@" name = false /\ Str.len name < 50)).
  { rewrite lookup_set_opt_eq.
    destruct (List.find is_name (take 15 lines)) as [ln|] eqn:En.
    - apply find_some in En as [Hin Hn]. exists ln. split; [done|]. right.
      split; [done|]. by apply is_name_plain.
    - exists name_placeholder. split; [reflexivity | by left]. }
  destruct Hname as (name & Hname & Hn).
  assert (Hloc : exists loc,
    location_of lines = (if Str.truthy loc then Some loc else None) /\
    (loc = "" \/ In loc lines)).
  { unfold location_of.
    destruct (List.find city_line lines) as [ln|] eqn:Ec.
    - apply find_some in Ec as [Hin Hc]. exists ln.
      rewrite (city_line_truthy _ Hc). auto.
    - destruct (List.find comma_line (take 10 lines)) as [ln|] eqn:Ef.
      + apply find_some in Ef as [Hin Hc]. exists ln. split.
        * destruct ln; [by vm_compute in Hc | done].
        * right. by eapply in_take.
      + exists "". auto. }
  destruct Hloc as (loc & Hloc & Hl).
  exists name, loc.
  destruct (List.find title_line (take 25 lines)) as [ln|] eqn:Et.
  - exists ln. apply find_some in Et as [Hin Ht].
    split; [by through_set_opt|]. split; [|split; [by rewrite lookup_set_opt_eq|]].
    + through_set_opt. rewrite lookup_set_opt_eq, Hloc.
      destruct (Str.truthy loc) eqn:Tl; [done|].
      through_set_opt. destruct loc; [reflexivity | done].
    + split; [done|]. split; [done|]. right. split; [done|].
      unfold title_line in Ht. apply andb_prop in Ht as [_ Ht].
      by apply Nat.ltb_lt in Ht.
  - exists "". split; [by through_set_opt|].
    split; [|split; [by (rewrite lookup_set_opt_eq; through_set_opt)|]].
    + through_set_opt. rewrite lookup_set_opt_eq, Hloc.
      destruct (Str.truthy loc) eqn:Tl; [done|].
      through_set_opt. destruct loc; [reflexivity | done].
    + auto.
Qed.

Lemma header_fields_are_lines_witness :
  exists name loc title,
    extract_resume_from_pdf (one_page scenario) !! "fullname" = Some name /\
    extract_resume_from_pdf (one_page scenario) !! "location" = Some loc /\
    extract_resume_from_pdf (one_page scenario) !! "title" = Some title /\
    (name = name_placeholder \/
     In name (take 15 (lines_of (nl +:+ scenario))) /\
     Str.contains "@" name = false /\ Str.len name < 50) /\
    (loc = "" \/ In loc (lines_of (nl +:+ scenario))) /\
    (title = "" \/
     In title (take 25 (lines_of (nl +:+ scenario))) /\ Str.len title < 100).
Proof.
  apply (header_fields_are_lines (one_page scenario) (nl +:+ scenario)).
  reflexivity.
Defined.
